(** * Drafter agent: the document tools, the stop test and the graph

    A shallow embedding of [agent.py]: the two tools [update] and [save]
    acting on the global [document_content], the routing function
    [should_continue], and the LangGraph workflow built by [setup_graph].

    Python [str] values are sequences of Unicode code points.  The built-in
    string methods the program calls ([strip], [lower], [isalnum],
    [endswith], [in]) are written out below as CPython implements them.
    The whitespace set is CPython's; the alphanumeric and case tables of
    the Unicode character database are given on ASCII and are a parameter
    beyond it (class [Unicode]), so the statements hold for whichever
    version of the database the interpreter ships. *)

From Stdlib Require Import NArith List Bool Lia String Ascii.
From stdpp Require Import gmap list.
Import ListNotations.

Local Open Scope N_scope.
Local Open Scope list_scope.

(** ** Strings *)

Definition char := N.
Abbreviation str := (list char).

(** An ASCII literal of the source, as code points. *)
Definition lit (s : string) : str :=
  List.map N_of_ascii (list_ascii_of_string s).

Definition LF : char := 10.

Module Py.

(** [_PyUnicode_IsWhitespace]: the code points [str.strip()] removes. *)
Definition isspace (c : char) : bool :=
  ((0x09 <=? c) && (c <=? 0x0D)) || ((0x1C <=? c) && (c <=? 0x20))
  || (c =? 0x85) || (c =? 0xA0) || (c =? 0x1680)
  || ((0x2000 <=? c) && (c <=? 0x200A))
  || (c =? 0x2028) || (c =? 0x2029) || (c =? 0x202F) || (c =? 0x205F)
  || (c =? 0x3000).

Fixpoint lstrip (s : str) : str :=
  match s with
  | [] => []
  | c :: r => if isspace c then lstrip r else s
  end.

Definition rstrip (s : str) : str := rev (lstrip (rev s)).

(** [s.strip()]: leading, then trailing, whitespace is dropped. *)
Definition strip (s : str) : str := rstrip (lstrip s).

(** Truth value of a string ([not s] is [negb (truthy s)]). *)
Definition truthy (s : str) : bool :=
  match s with [] => false | _ :: _ => true end.

(** [s.startswith(p)] *)
Fixpoint startswith (s p : str) : bool :=
  match p, s with
  | [], _ => true
  | _ :: _, [] => false
  | a :: p', b :: s' => (a =? b) && startswith s' p'
  end.

(** [s.endswith(p)] *)
Definition endswith (s p : str) : bool := startswith (rev s) (rev p).

(** [needle in hay] on strings: substring search. *)
Fixpoint contains (hay needle : str) : bool :=
  startswith hay needle
  || match hay with
     | [] => false
     | _ :: t => contains t needle
     end.

(** The Unicode character database beyond ASCII. *)
Class Unicode := {
  (** [str.isalnum()] of a code point above U+007F *)
  alnum_table : char -> bool;
  (** [_PyUnicode_ToLowerFull] of a code point above U+007F *)
  lower_table : char -> list char;
  (** [_PyUnicode_IsCased] *)
  cased : char -> bool;
  (** [_PyUnicode_IsCaseIgnorable] *)
  case_ignorable : char -> bool
}.

Section WithUnicode.
Context {U : Unicode}.

(** [c.isalnum()] for a one-character string. *)
Definition isalnum (c : char) : bool :=
  if c <? 128
  then ((0x30 <=? c) && (c <=? 0x39)) || ((0x41 <=? c) && (c <=? 0x5A))
       || ((0x61 <=? c) && (c <=? 0x7A))
  else alnum_table c.

Definition ToLowerFull (c : char) : list char :=
  if c <? 128
  then [if (0x41 <=? c) && (c <=? 0x5A) then c + 32 else c]
  else lower_table c.

(** The nearest code point that is not case-ignorable, if any. *)
Fixpoint skip_ignorable (s : str) : option char :=
  match s with
  | [] => None
  | c :: r => if case_ignorable c then skip_ignorable r else Some c
  end.

(** [handle_capital_sigma]: U+03A3 becomes the final sigma U+03C2 when a
    cased letter precedes it and none follows, U+03C3 otherwise.  [before]
    holds the preceding code points, nearest first. *)
Definition handle_capital_sigma (before after : str) : char :=
  let final_sigma :=
    match skip_ignorable before with
    | None => false
    | Some c =>
        cased c
        && match skip_ignorable after with
           | None => true
           | Some d => negb (cased d)
           end
    end in
  if final_sigma then 0x3C2 else 0x3C3.

Definition lower_ucs4 (before : str) (c : char) (after : str) : list char :=
  if c =? 0x3A3 then [handle_capital_sigma before after] else ToLowerFull c.

Fixpoint do_lower (before s : str) : str :=
  match s with
  | [] => []
  | c :: after => lower_ucs4 before c after ++ do_lower (c :: before) after
  end.

(** [s.lower()] *)
Definition lower (s : str) : str := do_lower [] s.

End WithUnicode.

End Py.

(** ** The document and the file system *)

(** The process state the tools act on: the global [document_content] and
    the text files on disk, by path.  Console output is not modelled. *)
Record world := World {
  document_content : str;
  files : gmap str str
}.

(** What the operating system does to a write: [os disk path data] is
    [Some (e, disk')] when creating the parent directory, opening the file
    or writing [data] raises an exception whose text is [e], leaving the
    disk as [disk']; [None] when the file is written. *)
Definition os : Type :=
  gmap str str -> str -> str -> option (str * gmap str str).

(** At import time the document is the empty string. *)
Definition initial (disk : gmap str str) : world :=
  {| document_content := []; files := disk |}.

(** ** Text of the tool results *)

Definition CHECK_MARK : char := 0x2705.
Definition CROSS_MARK : char := 0x274C.
Definition WARNING_SIGN : str := [0x26A0; 0xFE0F].

Definition update_error : str :=
  lit "Error: Cannot update document with empty content.".

Definition update_ok (document : str) : str :=
  CHECK_MARK :: lit " Document has been updated successfully!"
  ++ [LF; LF] ++ lit "Current content:" ++ [LF] ++ document.

Definition save_warning : str :=
  WARNING_SIGN ++ lit " Warning: Document is empty. Saving empty document.".

Definition save_ok (name : str) : str :=
  CHECK_MARK :: lit " Document has been saved successfully to '"
  ++ name ++ lit "'.".

Definition save_error (e : str) : str :=
  CROSS_MARK :: lit " Error saving document: " ++ e.

(** ** The tools *)

(** [Path(filename).name]: the final component of the path (what follows
    the last separator; the names that reach it below carry none). *)
Fixpoint Path_name (p : str) : str :=
  match p with
  | [] => []
  | c :: r => if Py.contains r (lit "/") then Path_name r
              else if c =? 0x2F then r else p
  end.

Section Tools.
Context {U : Py.Unicode}.

(** The outcome of the [try] block of [save]. *)
Variable os_error : os.

Definition update (content : str) (w : world) : str * world :=
  if negb (Py.truthy (Py.strip content)) then (update_error, w)
  else
    let w' := {| document_content := Py.strip content; files := files w |} in
    (update_ok (document_content w'), w').

(** [if not filename.endswith('.txt'): filename = f'{filename}.txt'] *)
Definition ensure_txt (filename : str) : str :=
  if negb (Py.endswith filename (lit ".txt")) then filename ++ lit ".txt"
  else filename.

(** The condition [c.isalnum() or c in "._- "]. *)
Definition kept (c : char) : bool :=
  Py.isalnum c || Py.contains (lit "._- ") [c].

(** The characters of [filename] that pass the test, joined. *)
Definition sanitize (filename : str) : str := List.filter kept filename.

Definition save (filename : str) (w : world) : str * world :=
  if negb (Py.truthy (Py.strip (document_content w))) then (save_warning, w)
  else
    let filename := ensure_txt filename in
    let filename := sanitize filename in
    let file_path := filename in
    match os_error (files w) file_path (document_content w) with
    | None =>
        (save_ok (Path_name file_path),
         {| document_content := document_content w;
            files := <[file_path := document_content w]> (files w) |})
    | Some (e, disk') =>
        (save_error e,
         {| document_content := document_content w; files := disk' |})
    end.

End Tools.

(** ** Messages *)

Record tool_call := ToolCall {
  name : str;
  args : gmap str str;
  call_id : str
}.

Inductive message :=
| SystemMessage (content : str)
| HumanMessage (content : str)
| AIMessage (content : str) (tool_calls : list tool_call)
| ToolMessage (content : str) (tool_call_id : str).

(** [AgentState]: the value under the key ["messages"]. *)
Abbreviation AgentState := (list message).

(** Lines of a triple-quoted literal, each closed by a line feed. *)
Definition text (lines : list str) : str :=
  List.concat (List.map (fun l => l ++ [LF]) lines).

Definition create_system_prompt (w : world) : message :=
  SystemMessage (text [
    [];
    lit "You are Drafter, a helpful and professional document writing assistant. Your role is to help users create, edit, and manage documents effectively.";
    [];
    lit "CAPABILITIES:";
    lit "- Update document content using the 'update' tool";
    lit "- Save documents to files using the 'save' tool";
    lit "- Provide writing suggestions and improvements";
    lit "- Help with document structure and formatting";
    [];
    lit "GUIDELINES:";
    lit "- Always be helpful, professional, and clear in your responses";
    lit "- When updating content, use the 'update' tool with the complete new content";
    lit "- When saving, use the 'save' tool with an appropriate filename";
    lit "- Show the current document state after any modifications";
    lit "- Provide constructive feedback and suggestions";
    lit "- Ask clarifying questions when needed";
    [];
    lit "Current document content:";
    if Py.truthy (document_content w) then document_content w
    else lit "No content yet";
    [];
    lit "Remember: Always show the current document state after any changes."
  ]).

Definition welcome_message : str :=
  text [
    [];
    0x1F389 :: lit " Welcome to Drafter - Your AI Document Assistant!";
    [];
    lit "I can help you:";
    0x2022 :: lit " Create new documents from scratch";
    0x2022 :: lit " Edit and improve existing content";
    0x2022 :: lit " Save your work to files";
    0x2022 :: lit " Provide writing suggestions";
    [];
    lit "What would you like to create or work on today?"
  ].

(** What [input()] does: a line is read, or the call raises.  On
    [KeyboardInterrupt] and [EOFError] the process exits ([sys.exit(0)]);
    any other exception leaves [get_user_input] as it was raised.  Either
    way no message comes back. *)
Inductive console :=
| Line (user_input : str)
| Interrupted.

(** [None]: no message is returned ([input()] raised). *)
Definition get_user_input (state : AgentState) (c : console) : option message :=
  match state with
  | [] => Some (HumanMessage welcome_message)
  | _ :: _ =>
      match c with
      | Line user_input =>
          if negb (Py.truthy (Py.strip user_input))
          then Some (HumanMessage
                       (lit "Please provide some input or say 'save' to finish."))
          else Some (HumanMessage (Py.strip user_input))
      | Interrupted => None
      end
  end.

(** What [model.invoke] does: an assistant message; an exception that
    [except Exception] catches, with its text; or an exception that it
    does not catch ([KeyboardInterrupt], [SystemExit]). *)
Inductive completion :=
| Response (content : str) (tool_calls : list tool_call)
| Raised (e : str)
| Escaped.

Section Agent.

(** The language model behind [model.invoke]. *)
Variable model : list message -> completion.

(** [None]: the node returns no state (the process exits, or an
    exception leaves the node). *)
Definition our_agent (w : world) (state : AgentState) (c : console)
  : option AgentState :=
  let system_prompt := create_system_prompt w in
  match get_user_input state c with
  | None => None
  | Some user_message =>
      let all_messages := [system_prompt] ++ state ++ [user_message] in
      match model all_messages with
      | Response content calls =>
          Some (state ++ [user_message; AIMessage content calls])
      | Raised e =>
          let error_message :=
            CROSS_MARK :: lit " Error processing request: " ++ e in
          Some (state ++ [user_message; AIMessage error_message []])
      | Escaped => None
      end
  end.

End Agent.

(** ** The stop test *)

(** The two strings [should_continue] returns, ["continue"] and ["end"];
    they are the keys of the conditional edges. *)
Inductive route := Continue | End_.

Section Routing.
Context {U : Py.Unicode}.

(** The condition of the [if] inside the loop of [should_continue]. *)
Definition reports_save (m : message) : bool :=
  match m with
  | ToolMessage content _ =>
      Py.contains (Py.lower content) (lit "saved")
      && Py.contains (Py.lower content) (lit "document")
      && Py.contains (Py.lower content) (lit "successfully")
  | _ => false
  end.

(** The [for] loop, over the messages in the order it visits them. *)
Fixpoint scan (visited : list message) : route :=
  match visited with
  | [] => Continue
  | m :: rest => if reports_save m then End_ else scan rest
  end.

Definition should_continue (state : AgentState) : route :=
  let messages := state in
  match messages with
  | [] => Continue
  | _ :: _ => scan (rev messages)
  end.

End Routing.

(** ** The graph *)

Section Graph.
Context {U : Py.Unicode}.
Variable os_error : os.
Variable model : list message -> completion.

(** The text [ToolNode] answers with when it cannot run a call (a name
    that is not a tool, arguments that do not fit). *)
Variable tool_error : tool_call -> str.

(** One call of the batch: the tool is looked up by name in
    [tools = [update, save]] and invoked on the arguments. *)
Definition run_one (call : tool_call) (w : world) : message * world :=
  let '(content, w') :=
    if bool_decide (name call = lit "update") then
      match args call !! lit "content" with
      | Some content => update content w
      | None => (tool_error call, w)
      end
    else if bool_decide (name call = lit "save") then
      match args call !! lit "filename" with
      | Some filename => save os_error filename w
      | None => (tool_error call, w)
      end
    else (tool_error call, w) in
  (ToolMessage content (call_id call), w').

Fixpoint run_calls (calls : list tool_call) (w : world) : list message * world :=
  match calls with
  | [] => ([], w)
  | call :: rest =>
      let '(m, w1) := run_one call w in
      let '(ms, w2) := run_calls rest w1 in
      (m :: ms, w2)
  end.

(** [ToolNode(tools)]: the calls of the last message, which must be an
    assistant message, are run in request order; one [ToolMessage] per
    call is returned.  [None]: the node raises. *)
Definition ToolNode (state : AgentState) (w : world)
  : option (list message * world) :=
  match last state with
  | Some (AIMessage _ calls) => Some (run_calls calls w)
  | _ => None
  end.

Inductive node := agent | tools | END.

(** [graph.set_entry_point("agent")] *)
Definition entry_point : node := agent.

(** [graph.add_edge("agent", "tools")] *)
Definition edges : list (node * node) := [(agent, tools)].

(** [graph.add_conditional_edges("tools", should_continue,
    {"continue": "agent", "end": END})] *)
Definition conditional_edges (r : route) : node :=
  match r with
  | Continue => agent
  | End_ => END
  end.

(** A configuration: the node about to run, the messages, the world. *)
Definition config : Type := node * AgentState * world.

(** One node runs.  The messages a node returns are appended to the state
    (the [add_messages] reducer keeps the ones already there). *)
Inductive step : config -> config -> Prop :=
| step_agent st w c st' next :
    our_agent model w st c = Some st' ->
    In (agent, next) edges ->
    step (agent, st, w) (next, st', w)
| step_tools st w outs w' :
    ToolNode st w = Some (outs, w') ->
    step (tools, st, w)
         (conditional_edges (should_continue (st ++ outs)), st ++ outs, w').

(** The configurations a session goes through, from
    [state = {"messages": []}].  The library stops a run that reaches its
    recursion limit; the runs it allows are among these. *)
Inductive reachable (disk : gmap str str) : config -> Prop :=
| reachable_start : reachable disk (entry_point, [], initial disk)
| reachable_step c c' : reachable disk c -> step c c' -> reachable disk c'.

End Graph.

(** ** Sequences of tool calls *)

Inductive call :=
| Update (content : str)
| Save (filename : str).

Section Calls.
Context {U : Py.Unicode}.
Variable os_error : os.

Definition invoke (c : call) (w : world) : str * world :=
  match c with
  | Update content => update content w
  | Save filename => save os_error filename w
  end.

(** The world after the calls, made in order. *)
Definition run (calls : list call) (w : world) : world :=
  fold_left (fun w c => snd (invoke c w)) calls w.

End Calls.

(** ** What is assumed of the Unicode database *)

(** The pictographs of the tool results have no case mapping (they are
    symbols of category So, and a variation selector). *)
Definition pictographs : list char :=
  [CHECK_MARK; CROSS_MARK; 0x26A0; 0xFE0F].

Definition pictographs_uncased (U : Py.Unicode) : Prop :=
  Forall (fun c => Py.ToLowerFull c = [c]) pictographs.

(** ** Sample environments *)

(** A database that knows no letter, digit or case beyond ASCII. *)
Definition ascii_only : Py.Unicode := {|
  Py.alnum_table := fun _ => false;
  Py.lower_table := fun c => [c];
  Py.cased := fun c =>
    ((0x41 <=? c) && (c <=? 0x5A)) || ((0x61 <=? c) && (c <=? 0x7A));
  Py.case_ignorable := fun _ => false
|}.

(** Every write succeeds. *)
Definition writable : os :=
  fun _ _ _ => None.

(** [open] raises [PermissionError]; its text names the file. *)
Definition read_only : os :=
  fun disk path _ =>
    Some (lit "[Errno 13] Permission denied: '" ++ path ++ lit "'", disk).

(** A model that answers in words and asks for no tool. *)
Definition chatty : list message -> completion :=
  fun _ => Response (lit "What should the document say?") [].

Definition no_such_tool : tool_call -> str :=
  fun call => lit "Error: " ++ name call ++ lit " is not a valid tool.".

(** A session with a draft in memory and nothing on disk. *)
Definition drafted : world :=
  {| document_content := lit "old draft"; files := ∅ |}.

Definition saved_poem : message :=
  ToolMessage (save_ok (lit "poem.txt")) (lit "call_1").

(** The model has asked for [save] with the filename [poem] while the
    document holds two lines. *)
Definition two_lines : world :=
  {| document_content := lit "line1" ++ [LF] ++ lit "line2"; files := ∅ |}.

Definition save_request : AgentState :=
  [HumanMessage (lit "save as poem");
   AIMessage [] [ToolCall (lit "save") {[ lit "filename" := lit "poem" ]}
                          (lit "call_1")]].

(** The first turn of a session with [chatty]. *)
Definition first_turn : AgentState :=
  [HumanMessage welcome_message;
   AIMessage (lit "What should the document say?") []].

(** ** Vocabulary of the proofs *)

(** The code point [c] does not occur in [p]. *)
Definition absent (c : char) (p : str) : bool :=
  forallb (fun x => negb (x =? c)) p.

Definition CAPITAL_SIGMA : char := 0x3A3.

(** The two small sigmas [handle_capital_sigma] chooses between. *)
Definition small_sigma (c : char) : bool := (c =? 0x3C2) || (c =? 0x3C3).

(** Equal up to the choice of the small sigma. *)
Definition sigma_eq (x y : char) : Prop :=
  x = y \/ (small_sigma x = true /\ small_sigma y = true).

(** The three markers [should_continue] looks for. *)
Definition markers : list str :=
  [lit "saved"; lit "document"; lit "successfully"].

(** While the session has not ended, the stop test answers [continue]. *)
Definition live {U : Py.Unicode} (c : config) : Prop :=
  let '(n, st, _) := c in n <> END -> should_continue st = Continue.

(** A message that is not a [ToolMessage]. *)
Definition not_tool (m : message) : bool :=
  match m with
  | ToolMessage _ _ => false
  | _ => true
  end.

(** ** What the console shows *)

(** [messages[-3:]]: the last three items, or all of them when there are
    fewer. *)
Definition last_three {A : Type} (l : list A) : list A :=
  skipn (length l - 3)%nat l.

Definition CLIPBOARD : char := 0x1F4CB.

(** [print_messages], as the strings it hands to [print], in order. *)
Definition print_messages (messages : list message) : list str :=
  match messages with
  | [] => []
  | _ :: _ =>
      let recent_messages := last_three messages in
      List.flat_map
        (fun message =>
           match message with
           | ToolMessage content _ =>
               let content := Py.strip content in
               if Py.truthy content then [CLIPBOARD :: lit " " ++ content]
               else []
           | _ => []
           end)
        recent_messages
  end.

(** ** More vocabulary *)

(** A call that cannot change the document: a [save], or an [update]
    whose content is blank. *)
Definition keeps_document (c : call) : bool :=
  match c with
  | Update content => negb (Py.truthy (Py.strip content))
  | Save _ => true
  end.

(** What [print_messages] prints for one message. *)
Definition shown (m : message) : list str :=
  match m with
  | ToolMessage content _ =>
      if Py.truthy (Py.strip content)
      then [CLIPBOARD :: lit " " ++ Py.strip content]
      else []
  | _ => []
  end.

(** The messages of a configuration, and its world. *)
Definition messages_of (c : config) : AgentState := snd (fst c).
Definition world_of (c : config) : world := snd c.
Definition node_of (c : config) : node := fst (fst c).

(** A model that, asked anything, has the haiku written and saved in one
    batch of two calls; and the session it leads to. *)
Definition scribe : list message -> completion :=
  fun _ =>
    Response []
      [ToolCall (lit "update") {[ lit "content" := lit " An old silent pond " ]}
                (lit "call_1");
       ToolCall (lit "save") {[ lit "filename" := lit "poem" ]} (lit "call_2")].

Definition scribe_turn : AgentState :=
  [HumanMessage welcome_message;
   AIMessage []
     [ToolCall (lit "update") {[ lit "content" := lit " An old silent pond " ]}
               (lit "call_1");
      ToolCall (lit "save") {[ lit "filename" := lit "poem" ]} (lit "call_2")]].

Definition scribe_results : AgentState :=
  [ToolMessage (update_ok (lit "An old silent pond")) (lit "call_1");
   ToolMessage (save_ok (lit "poem.txt")) (lit "call_2")].

Definition scribe_world : world :=
  {| document_content := lit "An old silent pond";
     files := {[ lit "poem.txt" := lit "An old silent pond" ]} |}.

(** * Properties *)

(** ** [strip] *)

Lemma lstrip_head s :
  Py.lstrip s = [] \/
  exists c r, Py.lstrip s = c :: r /\ Py.isspace c = false.
Proof.
  induction s as [|a s IH]; simpl; [now left|].
  destruct (Py.isspace a) eqn:Ha; [exact IH|].
  right. now exists a, s.
Qed.

Lemma lstrip_fixed c r : Py.isspace c = false -> Py.lstrip (c :: r) = c :: r.
Proof. intros H. simpl. now rewrite H. Qed.

Lemma lstrip_idem s : Py.lstrip (Py.lstrip s) = Py.lstrip s.
Proof.
  destruct (lstrip_head s) as [E|(c & r & E & Hc)]; rewrite E; [reflexivity|].
  now apply lstrip_fixed.
Qed.

Lemma lstrip_snoc s c :
  Py.isspace c = false -> Py.lstrip (s ++ [c]) = Py.lstrip s ++ [c].
Proof.
  intros Hc. induction s as [|a s IH]; simpl.
  - now rewrite Hc.
  - destruct (Py.isspace a); [exact IH|reflexivity].
Qed.

Lemma rstrip_cons c s :
  Py.isspace c = false -> Py.rstrip (c :: s) = c :: Py.rstrip s.
Proof.
  intros Hc. unfold Py.rstrip. simpl.
  rewrite lstrip_snoc by exact Hc.
  now rewrite rev_app_distr.
Qed.

Lemma rstrip_idem s : Py.rstrip (Py.rstrip s) = Py.rstrip s.
Proof.
  unfold Py.rstrip. now rewrite rev_involutive, lstrip_idem.
Qed.

Lemma strip_lstrip s : Py.lstrip (Py.strip s) = Py.strip s.
Proof.
  unfold Py.strip.
  destruct (lstrip_head s) as [E|(c & r & E & Hc)]; rewrite E; [reflexivity|].
  rewrite rstrip_cons by exact Hc. now apply lstrip_fixed.
Qed.

Lemma strip_idem s : Py.strip (Py.strip s) = Py.strip s.
Proof.
  unfold Py.strip at 1. rewrite strip_lstrip.
  unfold Py.strip. apply rstrip_idem.
Qed.

Lemma lstrip_spaces s : forallb Py.isspace s = true -> Py.lstrip s = [].
Proof.
  induction s as [|a s IH]; simpl; [reflexivity|].
  intros H. apply andb_true_iff in H as [Ha Hs]. rewrite Ha. auto.
Qed.

Lemma strip_spaces s : forallb Py.isspace s = true -> Py.strip s = [].
Proof. intros H. unfold Py.strip. now rewrite lstrip_spaces. Qed.

Lemma truthy_false s : Py.truthy s = false <-> s = [].
Proof. destruct s; simpl; split; congruence. Qed.

(** ** [startswith], [endswith] and [in] *)

Lemma startswith_app s p : Py.startswith (p ++ s) p = true.
Proof.
  induction p as [|a p IH]; simpl; [now destruct s|].
  now rewrite N.eqb_refl.
Qed.

Lemma startswith_spec s p :
  Py.startswith s p = true <-> exists r, s = p ++ r.
Proof.
  split.
  - revert s. induction p as [|a p IH]; intros s H.
    + now exists s.
    + destruct s as [|b s]; simpl in H; [discriminate|].
      apply andb_true_iff in H as [Hab H]. apply N.eqb_eq in Hab. subst b.
      destruct (IH _ H) as [r ->]. now exists r.
  - intros [r ->]. apply startswith_app.
Qed.

Lemma endswith_spec s p :
  Py.endswith s p = true <-> exists r, s = r ++ p.
Proof.
  unfold Py.endswith. rewrite startswith_spec. split.
  - intros [r H]. exists (rev r).
    rewrite <- (rev_involutive s), H, rev_app_distr.
    now rewrite rev_involutive.
  - intros [r ->]. exists (rev r). now rewrite rev_app_distr.
Qed.

Lemma startswith_extend s p x :
  Py.startswith s p = true -> Py.startswith (s ++ x) p = true.
Proof.
  rewrite !startswith_spec. intros [r ->]. exists (r ++ x).
  now rewrite <- app_assoc.
Qed.

Lemma contains_unfold s p :
  Py.contains s p
  = Py.startswith s p
    || match s with [] => false | _ :: t => Py.contains t p end.
Proof. now destruct s. Qed.

Lemma contains_spec s p :
  Py.contains s p = true <-> exists a b, s = a ++ p ++ b.
Proof.
  split.
  - induction s as [|c s IH]; rewrite contains_unfold; intros H;
      apply orb_true_iff in H as [H|H]; try discriminate.
    + apply startswith_spec in H as [r ->]. now exists [], r.
    + apply startswith_spec in H as [r ->]. now exists [], r.
    + destruct (IH H) as (a & b & ->). now exists (c :: a), b.
  - intros (a & b & ->). induction a as [|c a IH].
    + rewrite contains_unfold. simpl app. now rewrite startswith_app.
    + simpl app. rewrite contains_unfold, IH. apply orb_true_r.
Qed.

Lemma contains_extend s p x :
  Py.contains s p = true -> Py.contains (s ++ x) p = true.
Proof.
  rewrite !contains_spec. intros (a & b & ->). exists a, (b ++ x).
  now rewrite <- !app_assoc.
Qed.

Lemma contains_prepend s p x :
  Py.contains s p = true -> Py.contains (x ++ s) p = true.
Proof.
  rewrite !contains_spec. intros (a & b & ->). exists (x ++ a), b.
  now rewrite <- !app_assoc.
Qed.

Lemma startswith_sep c p a b :
  absent c p = true ->
  Py.startswith (a ++ c :: b) p = Py.startswith a p.
Proof.
  revert a. induction p as [|x p IH]; intros a H; [now destruct a|].
  simpl in H. apply andb_true_iff in H as [Hx Hp].
  apply negb_true_iff in Hx.
  destruct a as [|y a]; simpl.
  - now rewrite Hx.
  - now rewrite IH.
Qed.

(** A string cut at a character the needle does not have: the needle is
    on one side or on the other. *)
Lemma contains_sep c p a b :
  absent c p = true ->
  Py.contains (a ++ c :: b) p = Py.contains a p || Py.contains b p.
Proof.
  intros H. induction a as [|y a IH].
  - rewrite (contains_unfold (_ ++ _)), (contains_unfold []).
    rewrite (startswith_sep c p [] b H). simpl app.
    now rewrite orb_false_r.
  - rewrite (contains_unfold (_ ++ _)), (contains_unfold (y :: a)).
    rewrite (startswith_sep c p (y :: a) b H). cbn [app].
    now rewrite IH, orb_assoc.
Qed.

Lemma startswith_sigma x y p :
  Forall2 sigma_eq x y ->
  forallb (fun c => negb (small_sigma c)) p = true ->
  Py.startswith x p = Py.startswith y p.
Proof.
  intros Hxy. revert p. induction Hxy as [|a b x y Hab Hxy IH]; intros p Hp.
  - reflexivity.
  - destruct p as [|c p]; [reflexivity|]. simpl in Hp.
    apply andb_true_iff in Hp as [Hc Hp]. apply negb_true_iff in Hc.
    simpl. rewrite (IH p Hp).
    destruct Hab as [->|[Ha Hb]]; [reflexivity|].
    assert ((c =? a) = false) as ->
      by (apply N.eqb_neq; intros ->; congruence).
    assert ((c =? b) = false) as ->
      by (apply N.eqb_neq; intros ->; congruence).
    reflexivity.
Qed.

Lemma contains_sigma x y p :
  Forall2 sigma_eq x y ->
  forallb (fun c => negb (small_sigma c)) p = true ->
  Py.contains x p = Py.contains y p.
Proof.
  intros Hxy Hp. induction Hxy as [|a b x y Hab Hxy IH]; [reflexivity|].
  rewrite (contains_unfold (a :: x)), (contains_unfold (b :: y)), IH.
  f_equal. apply startswith_sigma; [now constructor|exact Hp].
Qed.

(** ** [lower] *)

Section Lower.
Context {U : Py.Unicode}.

Lemma Forall2_sigma_refl s : Forall2 sigma_eq s s.
Proof. induction s; constructor; [now left|assumption]. Qed.

(** What precedes a string changes its lower case at most in the choice
    of small sigmas. *)
Lemma do_lower_context b1 b2 s :
  Forall2 sigma_eq (Py.do_lower b1 s) (Py.do_lower b2 s).
Proof.
  revert b1 b2. induction s as [|c s IH]; intros b1 b2; [constructor|].
  simpl. apply Forall2_app; [|apply IH].
  unfold Py.lower_ucs4. destruct (c =? 0x3A3); [|apply Forall2_sigma_refl].
  constructor; [|constructor]. right.
  unfold Py.handle_capital_sigma.
  split; repeat match goal with |- context [if ?b then _ else _] =>
                                  destruct b end; reflexivity.
Qed.

Lemma do_lower_app b p e :
  absent CAPITAL_SIGMA p = true ->
  Py.do_lower b (p ++ e)
  = List.flat_map Py.ToLowerFull p ++ Py.do_lower (rev p ++ b) e.
Proof.
  revert b. induction p as [|c p IH]; intros b H; [reflexivity|].
  simpl in H. apply andb_true_iff in H as [Hc Hp].
  apply negb_true_iff in Hc.
  simpl. unfold Py.lower_ucs4 at 1.
  change 931 with CAPITAL_SIGMA. rewrite Hc, (IH _ Hp).
  now rewrite <- !app_assoc.
Qed.

Lemma lower_plain p :
  absent CAPITAL_SIGMA p = true ->
  Py.lower p = List.flat_map Py.ToLowerFull p.
Proof.
  intros H. unfold Py.lower.
  rewrite <- (app_nil_r p) at 1. rewrite (do_lower_app _ _ _ H).
  apply app_nil_r.
Qed.

(** The lower case of [q ++ [c] ++ e], searched for a needle that has
    neither [c] nor a small sigma. *)
Lemma contains_lower_sep q c e p :
  absent CAPITAL_SIGMA (q ++ [c]) = true ->
  Py.ToLowerFull c = [c] ->
  absent c p = true ->
  forallb (fun c => negb (small_sigma c)) p = true ->
  Py.contains (Py.lower ((q ++ [c]) ++ e)) p
  = Py.contains (List.flat_map Py.ToLowerFull q) p
    || Py.contains (Py.lower e) p.
Proof.
  intros Hq Hc Hp Hs. unfold Py.lower.
  rewrite (do_lower_app _ _ _ Hq), flat_map_app. simpl List.flat_map.
  rewrite Hc, app_nil_r, <- app_assoc. simpl app.
  rewrite (contains_sep _ _ _ _ Hp). f_equal.
  apply contains_sigma; [apply do_lower_context|exact Hs].
Qed.

End Lower.

(** ** The text of the tool results, searched for the markers *)

Section Results.
Context {U : Py.Unicode}.

Lemma uncased_pictograph c :
  pictographs_uncased U -> In c pictographs -> Py.ToLowerFull c = [c].
Proof.
  intros H Hc. unfold pictographs_uncased in H.
  rewrite List.Forall_forall in H. now apply H.
Qed.

Ltac sep_conditions :=
  first [ reflexivity | now (apply uncased_pictograph; simpl; auto) ].

(** A successful save carries the three markers, whatever the name. *)
Lemma save_ok_markers name p :
  In p markers ->
  Py.contains (Py.lower (save_ok name)) p = true.
Proof.
  intros Hp.
  change (save_ok name)
    with ((CHECK_MARK :: lit " Document has been saved successfully to '")
          ++ name ++ lit "'.").
  unfold Py.lower. rewrite do_lower_app by reflexivity.
  apply contains_extend.
  change (Py.contains
            (Py.ToLowerFull CHECK_MARK
             ++ List.flat_map Py.ToLowerFull
                  (lit " Document has been saved successfully to '")) p
          = true).
  apply contains_prepend.
  simpl in Hp. destruct Hp as [<-|[<-|[<-|[]]]]; vm_compute; reflexivity.
Qed.

(** An update confirmation carries [document] and [successfully] in its
    fixed part; [saved] can only come from the document. *)
Lemma update_ok_saved document :
  pictographs_uncased U ->
  Py.contains (Py.lower (update_ok document)) (lit "saved")
  = Py.contains (Py.lower document) (lit "saved").
Proof.
  intros HU.
  change (update_ok document)
    with (((CHECK_MARK :: lit " Document has been updated successfully!"
            ++ [LF; LF] ++ lit "Current content:") ++ [LF]) ++ document).
  rewrite contains_lower_sep by sep_conditions.
  change (List.flat_map Py.ToLowerFull (CHECK_MARK :: ?t))
    with (Py.ToLowerFull CHECK_MARK ++ List.flat_map Py.ToLowerFull t).
  rewrite (uncased_pictograph CHECK_MARK HU) by (simpl; auto).
  reflexivity.
Qed.

Lemma update_ok_fixed document p :
  In p [lit "document"; lit "successfully"] ->
  Py.contains (Py.lower (update_ok document)) p = true.
Proof.
  intros Hp.
  change (update_ok document)
    with ((CHECK_MARK :: lit " Document has been updated successfully!")
          ++ [LF; LF] ++ lit "Current content:" ++ [LF] ++ document).
  unfold Py.lower. rewrite do_lower_app by reflexivity.
  apply contains_extend.
  change (Py.contains
            (Py.ToLowerFull CHECK_MARK
             ++ List.flat_map Py.ToLowerFull
                  (lit " Document has been updated successfully!")) p
          = true).
  apply contains_prepend.
  simpl in Hp. destruct Hp as [<-|[<-|[]]]; vm_compute; reflexivity.
Qed.

(** A save error carries [document] in its fixed part; [saved] and
    [successfully] can only come from the text of the exception. *)
Lemma save_error_marker e p :
  pictographs_uncased U ->
  In p [lit "saved"; lit "successfully"] ->
  Py.contains (Py.lower (save_error e)) p = Py.contains (Py.lower e) p.
Proof.
  intros HU Hp.
  change (save_error e)
    with (((CROSS_MARK :: lit " Error saving document:") ++ [32]) ++ e).
  simpl in Hp.
  destruct Hp as [<-|[<-|[]]];
    rewrite contains_lower_sep by sep_conditions;
    change (List.flat_map Py.ToLowerFull (CROSS_MARK :: ?t))
      with (Py.ToLowerFull CROSS_MARK ++ List.flat_map Py.ToLowerFull t);
    rewrite (uncased_pictograph CROSS_MARK HU) by (simpl; auto);
    reflexivity.
Qed.

Lemma save_error_document e :
  Py.contains (Py.lower (save_error e)) (lit "document") = true.
Proof.
  change (save_error e)
    with ((CROSS_MARK :: lit " Error saving document: ") ++ e).
  unfold Py.lower. rewrite do_lower_app by reflexivity.
  apply contains_extend.
  change (Py.contains
            (Py.ToLowerFull CROSS_MARK
             ++ List.flat_map Py.ToLowerFull
                  (lit " Error saving document: ")) (lit "document")
          = true).
  apply contains_prepend. vm_compute. reflexivity.
Qed.

(** The warning of a save on an empty document has neither [saved] nor
    [successfully]. *)
Lemma save_warning_saved :
  pictographs_uncased U ->
  Py.contains (Py.lower save_warning) (lit "saved") = false.
Proof.
  intros HU. rewrite lower_plain by reflexivity.
  change (List.flat_map Py.ToLowerFull save_warning)
    with (Py.ToLowerFull 0x26A0 ++ Py.ToLowerFull 0xFE0F
          ++ List.flat_map Py.ToLowerFull
               (lit " Warning: Document is empty. Saving empty document.")).
  rewrite (uncased_pictograph 0x26A0 HU), (uncased_pictograph 0xFE0F HU)
    by (simpl; auto).
  reflexivity.
Qed.

End Results.

(** ** [should_continue] *)

Section RoutingFacts.
Context {U : Py.Unicode}.

Lemma scan_end visited :
  scan visited = End_ <-> exists m, In m visited /\ reports_save m = true.
Proof.
  induction visited as [|m rest IH]; simpl.
  - split; [discriminate|now intros (m & [] & _)].
  - destruct (reports_save m) eqn:Hm.
    + split; [|reflexivity]. intros _. exists m. auto.
    + rewrite IH. split.
      * intros (x & Hx & Hs). exists x. auto.
      * intros (x & [->|Hx] & Hs); [congruence|]. now exists x.
Qed.

Lemma should_continue_scan state : should_continue state = scan (rev state).
Proof. now destruct state. Qed.

(** The session ends exactly when some message of the history passes the
    triple test. *)
Lemma should_continue_end state :
  should_continue state = End_
  <-> exists m, In m state /\ reports_save m = true.
Proof.
  rewrite should_continue_scan, scan_end.
  split; intros (m & Hm & Hs); exists m; split; auto;
    now apply in_rev in Hm.
Qed.

Lemma should_continue_continue state :
  should_continue state = Continue
  <-> forall m, In m state -> reports_save m = false.
Proof.
  split.
  - intros H m Hm. destruct (reports_save m) eqn:Hs; [|reflexivity].
    assert (should_continue state = End_)
      by (apply should_continue_end; now exists m).
    congruence.
  - intros H. destruct (should_continue state) eqn:E; [reflexivity|].
    apply should_continue_end in E as (m & Hm & Hs).
    rewrite (H m Hm) in Hs. discriminate.
Qed.

Lemma not_tool_reports m : not_tool m = true -> reports_save m = false.
Proof. now destruct m. Qed.

Lemma reports_save_error e i :
  pictographs_uncased U ->
  reports_save (ToolMessage (save_error e) i)
  = Py.contains (Py.lower e) (lit "saved")
    && Py.contains (Py.lower e) (lit "successfully").
Proof.
  intros HU. unfold reports_save.
  rewrite (save_error_marker e (lit "saved") HU) by (simpl; auto).
  rewrite (save_error_marker e (lit "successfully") HU) by (simpl; auto).
  rewrite save_error_document. now rewrite andb_true_r.
Qed.

Lemma reports_save_update document i :
  pictographs_uncased U ->
  reports_save (ToolMessage (update_ok document) i)
  = Py.contains (Py.lower document) (lit "saved").
Proof.
  intros HU. unfold reports_save.
  rewrite (update_ok_saved document HU).
  rewrite (update_ok_fixed document (lit "document")) by (simpl; auto).
  rewrite (update_ok_fixed document (lit "successfully")) by (simpl; auto).
  now rewrite !andb_true_r.
Qed.

Lemma reports_save_ok name i :
  reports_save (ToolMessage (save_ok name) i) = true.
Proof.
  unfold reports_save. now rewrite !save_ok_markers by (simpl; auto).
Qed.

End RoutingFacts.

(** ** The tools *)

Section ToolFacts.
Context {U : Py.Unicode}.
Variable os_error : os.

Lemma update_empty content w :
  Py.strip content = [] -> update content w = (update_error, w).
Proof. intros H. unfold update. now rewrite H. Qed.

Lemma update_nonempty content w :
  Py.strip content <> [] ->
  update content w
  = (update_ok (Py.strip content),
     {| document_content := Py.strip content; files := files w |}).
Proof.
  intros H. unfold update.
  destruct (Py.strip content); [congruence|reflexivity].
Qed.

Lemma save_empty filename w :
  Py.strip (document_content w) = [] ->
  save os_error filename w = (save_warning, w).
Proof. intros H. unfold save. now rewrite H. Qed.

Lemma save_raises filename w e disk' :
  Py.strip (document_content w) <> [] ->
  os_error (files w) (sanitize (ensure_txt filename)) (document_content w)
  = Some (e, disk') ->
  save os_error filename w
  = (save_error e,
     {| document_content := document_content w; files := disk' |}).
Proof.
  intros Hd He. unfold save.
  destruct (Py.strip (document_content w)); [congruence|]. simpl.
  now rewrite He.
Qed.

Lemma save_written filename w :
  Py.strip (document_content w) <> [] ->
  os_error (files w) (sanitize (ensure_txt filename)) (document_content w)
  = None ->
  save os_error filename w
  = (save_ok (Path_name (sanitize (ensure_txt filename))),
     {| document_content := document_content w;
        files := <[sanitize (ensure_txt filename) := document_content w]>
                   (files w) |}).
Proof.
  intros Hd He. unfold save.
  destruct (Py.strip (document_content w)); [congruence|]. simpl.
  now rewrite He.
Qed.

(** No tool call touches the document but a successful [update]. *)
Lemma save_document filename w :
  document_content (snd (save os_error filename w)) = document_content w.
Proof.
  unfold save.
  destruct (negb _); [reflexivity|].
  destruct (os_error _ _ _) as [[e disk']|]; reflexivity.
Qed.

End ToolFacts.

(** ** The built-ins on examples *)

Example strip_example :
  Py.strip (lit "  line1 " ++ [LF; 0x3000]) = lit "line1".
Proof. reflexivity. Qed.

Example endswith_example :
  Py.endswith (lit "poem.txt") (lit ".txt") = true
  /\ Py.endswith (lit "poem.TXT") (lit ".txt") = false
  /\ Py.endswith (lit "txt") (lit ".txt") = false.
Proof. repeat split. Qed.

Example lower_example :
  Py.lower (U := ascii_only) (CHECK_MARK :: lit " Document SAVED")
  = CHECK_MARK :: lit " document saved".
Proof. reflexivity. Qed.

(** A capital sigma after a cased letter and at the end of the word
    becomes the final sigma. *)
Example lower_sigma_example :
  Py.lower (U := ascii_only) [0x41; 0x3A3] = [0x61; 0x3C2]
  /\ Py.lower (U := ascii_only) [0x3A3; 0x41] = [0x3C3; 0x61].
Proof. split; reflexivity. Qed.

(** ** The sanitizer and the extension *)

Section Filenames.
Context {U : Py.Unicode}.

Lemma sanitize_kept filename :
  forallb kept filename = true -> sanitize filename = filename.
Proof.
  unfold sanitize. induction filename as [|c r IH]; simpl; [reflexivity|].
  intros H. apply andb_true_iff in H as [Hc Hr].
  now rewrite Hc, IH.
Qed.

Lemma sanitize_all_kept filename : forallb kept (sanitize filename) = true.
Proof.
  unfold sanitize. induction filename as [|c r IH]; simpl; [reflexivity|].
  destruct (kept c) eqn:Hc; simpl; [now rewrite Hc|exact IH].
Qed.

Lemma sanitize_app a b : sanitize (a ++ b) = sanitize a ++ sanitize b.
Proof. apply List.filter_app. Qed.

Lemma sanitize_txt : sanitize (lit ".txt") = lit ".txt".
Proof. reflexivity. Qed.

Lemma ensure_txt_missing filename :
  Py.endswith filename (lit ".txt") = false ->
  ensure_txt filename = filename ++ lit ".txt".
Proof. intros H. unfold ensure_txt. now rewrite H. Qed.

Lemma ensure_txt_present filename :
  Py.endswith filename (lit ".txt") = true -> ensure_txt filename = filename.
Proof. intros H. unfold ensure_txt. now rewrite H. Qed.

Lemma ensure_txt_ends filename :
  Py.endswith (ensure_txt filename) (lit ".txt") = true.
Proof.
  unfold ensure_txt. destruct (Py.endswith filename _) eqn:E; simpl.
  - exact E.
  - apply endswith_spec. now exists filename.
Qed.

Lemma sanitize_keeps_txt filename :
  Py.endswith filename (lit ".txt") = true ->
  Py.endswith (sanitize filename) (lit ".txt") = true.
Proof.
  rewrite !endswith_spec. intros [r ->]. exists (sanitize r).
  now rewrite sanitize_app, sanitize_txt.
Qed.

Lemma kept_slash : kept 0x2F = false.
Proof. reflexivity. Qed.

Lemma startswith_one c r x : Py.startswith (c :: r) [x] = (x =? c).
Proof. cbn [Py.startswith]. destruct r; apply andb_true_r. Qed.

Lemma Path_name_cons c r :
  Path_name (c :: r)
  = if Py.contains r (lit "/") then Path_name r
    else if c =? 0x2F then r else c :: r.
Proof. reflexivity. Qed.

Lemma Path_name_plain p :
  Py.contains p (lit "/") = false -> Path_name p = p.
Proof.
  destruct p as [|c r]; [reflexivity|].
  rewrite contains_unfold, Path_name_cons. intros H.
  apply orb_false_iff in H as [Hc Hr]. rewrite Hr.
  change (lit "/") with [0x2F : char] in Hc.
  rewrite startswith_one, N.eqb_sym in Hc. now rewrite Hc.
Qed.

Lemma kept_no_slash p :
  forallb kept p = true -> Py.contains p (lit "/") = false.
Proof.
  induction p as [|c r IH]; [reflexivity|]. cbn [forallb].
  intros H. apply andb_true_iff in H as [Hc Hr].
  rewrite contains_unfold, (IH Hr), orb_false_r.
  change (lit "/") with [0x2F : char]. rewrite startswith_one.
  apply N.eqb_neq. intros <-. rewrite kept_slash in Hc. discriminate.
Qed.

(** The sanitized name has no separator: it is its own final component,
    and the confirmation of a save names the path that was written. *)
Lemma Path_name_sanitize filename :
  Path_name (sanitize filename) = sanitize filename.
Proof. apply Path_name_plain, kept_no_slash, sanitize_all_kept. Qed.

End Filenames.

Lemma ascii_only_pictographs : pictographs_uncased ascii_only.
Proof. repeat constructor. Qed.

(** ** The claims about the tools *)

(** C6.  For every string whose trimmed form is not empty, [update]
    followed by a read of the document gives the trimmed string: the
    former content is replaced, whatever it was. *)
Theorem update_then_read (content : str) (w : world) :
  Py.truthy (Py.strip content) = true ->
  document_content (snd (update content w)) = Py.strip content.
Proof.
  intros H. rewrite update_nonempty; [reflexivity|].
  intros E. rewrite E in H. discriminate.
Qed.

Lemma update_then_read_witness :
  Py.truthy (Py.strip (lit "  Dear reader,  ")) = true
  /\ document_content (snd (update (lit "  Dear reader,  ") drafted))
     = lit "Dear reader,".
Proof.
  split; [reflexivity|].
  exact (update_then_read (lit "  Dear reader,  ") drafted eq_refl).
Defined.

(** C7.  [update] of the empty string or of a string of whitespace only
    returns the empty-content error and leaves the world, and so the
    stored document, as it was. *)
Theorem update_blank_rejected (content : str) (w : world) :
  forallb Py.isspace content = true ->
  update content w = (update_error, w).
Proof. intros H. apply update_empty. now apply strip_spaces. Qed.

Lemma update_blank_rejected_witness :
  forallb Py.isspace (lit "   ") = true
  /\ update (lit "   ") drafted = (update_error, drafted)
  /\ update [] drafted = (update_error, drafted).
Proof.
  split; [reflexivity|]. split.
  - exact (update_blank_rejected (lit "   ") drafted eq_refl).
  - exact (update_blank_rejected [] drafted eq_refl).
Defined.

(** C8.  Sanitizing a sanitized filename changes nothing. *)
Theorem sanitize_idempotent {U : Py.Unicode} (filename : str) :
  sanitize (sanitize filename) = sanitize filename.
Proof. apply sanitize_kept, sanitize_all_kept. Qed.

Section Invariant.
Context {U : Py.Unicode}.
Variable os_error : os.

Lemma invoke_trimmed c w :
  Py.strip (document_content w) = document_content w ->
  Py.strip (document_content (snd (invoke os_error c w)))
  = document_content (snd (invoke os_error c w)).
Proof.
  intros Hw. destruct c as [content|filename]; simpl.
  - destruct (Py.strip content) eqn:E.
    + now rewrite update_empty.
    + rewrite update_nonempty by congruence. simpl.
      apply strip_idem.
  - now rewrite save_document.
Qed.

Lemma run_trimmed calls w :
  Py.strip (document_content w) = document_content w ->
  Py.strip (document_content (run os_error calls w))
  = document_content (run os_error calls w).
Proof.
  revert w. induction calls as [|c calls IH]; intros w Hw; [exact Hw|].
  simpl. apply IH. now apply invoke_trimmed.
Qed.

End Invariant.

(** C9.  From the empty document, after any sequence of [update] and
    [save] calls, the stored document equals its own trimmed form. *)
Theorem document_stays_trimmed {U : Py.Unicode}
    (os_error : os)
    (disk : gmap str str) (calls : list call) :
  Py.strip (document_content (run os_error calls (initial disk)))
  = document_content (run os_error calls (initial disk)).
Proof. now apply run_trimmed. Qed.

(** ** The claims about the stop test *)

(** C10.  Once [should_continue] answers [end] on a history, it answers
    [end] on that history with any message appended. *)
Theorem should_continue_monotone {U : Py.Unicode}
    (state : AgentState) (m : message) :
  should_continue state = End_ ->
  should_continue (state ++ [m]) = End_.
Proof.
  rewrite !should_continue_end. intros (x & Hx & Hs).
  exists x. split; [|exact Hs]. apply in_or_app. now left.
Qed.

Lemma should_continue_monotone_witness :
  should_continue (U := ascii_only) [saved_poem] = End_
  /\ should_continue (U := ascii_only)
       ([saved_poem] ++ [HumanMessage (lit "one more thing")]) = End_.
Proof.
  split; [reflexivity|].
  exact (should_continue_monotone (U := ascii_only) [saved_poem]
           (HumanMessage (lit "one more thing")) eq_refl).
Defined.

(** The cases of [should_continue] that hold of the code.  It answers
    [continue] on the empty history, and on a history whose only
    [ToolMessage] is the result of a failed save when the text of the
    exception does not hold both [saved] and [successfully] (in any
    letter case); it answers [end]
    on every history with a [ToolMessage] whose text holds the three
    markers, whatever else the history holds. *)
Theorem should_continue_cases {U : Py.Unicode}
    (os_error : os) :
  pictographs_uncased U ->
  should_continue [] = Continue
  /\ (forall before after filename w e disk' i,
         forallb not_tool (before ++ after) = true ->
         Py.truthy (Py.strip (document_content w)) = true ->
         os_error (files w) (sanitize (ensure_txt filename))
                  (document_content w) = Some (e, disk') ->
         Py.contains (Py.lower e) (lit "saved")
         && Py.contains (Py.lower e) (lit "successfully") = false ->
         should_continue
           (before ++ ToolMessage (fst (save os_error filename w)) i :: after)
         = Continue)
  /\ (forall state content i,
         In (ToolMessage content i) state ->
         (forall p, In p markers ->
                    Py.contains (Py.lower content) p = true) ->
         should_continue state = End_).
Proof.
  intros HU. split; [reflexivity|]. split.
  - intros before after filename w e disk' i Hnt Hd He Hmark.
    rewrite (save_raises os_error filename w e disk'); trivial.
    2: { intros E. rewrite E in Hd. discriminate. }
    simpl fst. apply should_continue_continue. intros m Hm.
    rewrite forallb_forall in Hnt.
    apply in_app_or in Hm as [Hm|[<-|Hm]].
    + apply not_tool_reports, Hnt, in_or_app. now left.
    + now rewrite reports_save_error.
    + apply not_tool_reports, Hnt, in_or_app. now right.
  - intros state content i Hin Hp. apply should_continue_end.
    exists (ToolMessage content i). split; [exact Hin|].
    unfold reports_save. now rewrite !Hp by (simpl; auto).
Qed.

Lemma should_continue_cases_witness :
  pictographs_uncased ascii_only
  /\ should_continue (U := ascii_only)
       [HumanMessage (lit "save it as notes");
        ToolMessage (fst (save (U := ascii_only) read_only (lit "notes") drafted))
                    (lit "call_1")]
     = Continue
  /\ should_continue (U := ascii_only)
       [ToolMessage (save_error (lit "disk full")) (lit "call_1"); saved_poem]
     = End_.
Proof.
  split; [exact ascii_only_pictographs|].
  destruct (should_continue_cases (U := ascii_only) read_only
              ascii_only_pictographs) as (_ & Hfail & Hok).
  split.
  - exact (Hfail [HumanMessage (lit "save it as notes")] []
             (lit "notes") drafted _ _ (lit "call_1")
             eq_refl eq_refl eq_refl eq_refl).
  - apply (Hok _ (save_ok (lit "poem.txt")) (lit "call_1")).
    + simpl. auto.
    + intros p Hp. simpl in Hp.
      destruct Hp as [<-|[<-|[<-|[]]]]; reflexivity.
Defined.

(** C2, on the code.  A save that fails on a file named
    [saved successfully.txt] returns an error whose text, through the
    name of the file quoted in the exception, holds the three markers:
    nothing is written, and the history with that failed save alone ends
    the session, where the claim has [should_continue] answer
    [continue]. *)
Lemma failed_save_ends_session :
  fst (save (U := ascii_only) read_only (lit "saved successfully") drafted)
  = save_error (lit "[Errno 13] Permission denied: 'saved successfully.txt'")
  /\ files (snd (save (U := ascii_only) read_only
                      (lit "saved successfully") drafted)) = ∅
  /\ should_continue (U := ascii_only)
       [ToolMessage
          (fst (save (U := ascii_only) read_only
                     (lit "saved successfully") drafted))
          (lit "call_1")]
     = End_.
Proof. split; [|split]; vm_compute; reflexivity. Qed.

(** What holds of the result of [update].  When the trimmed content
    does not hold
    [saved] (in any letter case), the result of a successful [update]
    does not pass the triple test, and appended to a history on which
    [should_continue] answers [continue] it leaves the answer
    [continue]. *)
Theorem update_result_continues {U : Py.Unicode}
    (content : str) (w : world) (i : str) :
  pictographs_uncased U ->
  Py.truthy (Py.strip content) = true ->
  Py.contains (Py.lower (Py.strip content)) (lit "saved") = false ->
  reports_save (ToolMessage (fst (update content w)) i) = false
  /\ forall state,
       should_continue state = Continue ->
       should_continue (state ++ [ToolMessage (fst (update content w)) i])
       = Continue.
Proof.
  intros HU Hc Hs.
  assert (Hr : reports_save (ToolMessage (fst (update content w)) i) = false).
  { rewrite update_nonempty by (intros E; rewrite E in Hc; discriminate).
    simpl fst. now rewrite reports_save_update. }
  split; [exact Hr|].
  intros state Hstate. apply should_continue_continue. intros m Hm.
  apply in_app_or in Hm as [Hm|[<-|[]]]; [|exact Hr].
  now apply (proj1 (should_continue_continue state) Hstate).
Qed.

Lemma update_result_continues_witness :
  pictographs_uncased ascii_only
  /\ Py.truthy (Py.strip (lit " An old silent pond ")) = true
  /\ Py.contains (Py.lower (U := ascii_only)
                    (Py.strip (lit " An old silent pond ")))
                 (lit "saved") = false
  /\ reports_save (U := ascii_only)
       (ToolMessage (fst (update (lit " An old silent pond ") drafted))
                    (lit "call_1")) = false.
Proof.
  split; [exact ascii_only_pictographs|].
  split; [reflexivity|]. split; [reflexivity|].
  exact (proj1 (update_result_continues (U := ascii_only)
                  (lit " An old silent pond ") drafted (lit "call_1")
                  ascii_only_pictographs eq_refl eq_refl)).
Defined.

(** C3, on the code.  The confirmation of an update repeats the
    document, so a document that holds the word [saved] yields a result
    with the three markers: the session ends on an update, with nothing
    saved, where the claim has no update result pass the test. *)
Lemma update_result_ends_session :
  fst (update (lit "Dear all, I saved the minutes.") drafted)
  = update_ok (lit "Dear all, I saved the minutes.")
  /\ should_continue (U := ascii_only)
       [ToolMessage (fst (update (lit "Dear all, I saved the minutes.") drafted))
                    (lit "call_1")]
     = End_.
Proof. split; vm_compute; reflexivity. Qed.

(** C1, on the code.  When the stored document is empty or blank, [save]
    returns the warning at once: the world is returned as it was, so no
    file is written, and the warning, carrying neither [saved] nor
    [successfully], leaves [should_continue] at [continue]. *)
Theorem save_empty_document {U : Py.Unicode}
    (os_error : os)
    (filename : str) (w : world) (i : str) :
  pictographs_uncased U ->
  Py.truthy (Py.strip (document_content w)) = false ->
  save os_error filename w = (save_warning, w)
  /\ should_continue [ToolMessage save_warning i] = Continue.
Proof.
  intros HU Hd. split.
  - apply save_empty. now apply truthy_false.
  - apply should_continue_continue. intros m [<-|[]].
    unfold reports_save. now rewrite (save_warning_saved HU).
Qed.

Lemma save_empty_document_witness :
  pictographs_uncased ascii_only
  /\ Py.truthy (Py.strip (document_content (initial ∅))) = false
  /\ save (U := ascii_only) writable (lit "notes") (initial ∅)
     = (save_warning, initial ∅)
  /\ should_continue (U := ascii_only)
       [ToolMessage save_warning (lit "call_1")] = Continue.
Proof.
  split; [exact ascii_only_pictographs|]. split; [reflexivity|].
  exact (save_empty_document (U := ascii_only) writable (lit "notes")
           (initial ∅) (lit "call_1") ascii_only_pictographs eq_refl).
Defined.

(** C5, as the code has it.  When the document is not empty and the write
    succeeds, [save] writes the document to the sanitized form of the
    filename with its extension ensured: for a filename that does not end
    in [.txt] this is the sanitized filename followed by [.txt] (the
    filename itself followed by [.txt] when the sanitizer keeps all its
    characters); for a filename that ends in [.txt] it is the sanitized
    filename, with nothing appended.  In both cases the path ends in
    [.txt]. *)
Theorem save_path {U : Py.Unicode}
    (os_error : os)
    (filename : str) (w : world) :
  Py.truthy (Py.strip (document_content w)) = true ->
  os_error (files w) (sanitize (ensure_txt filename)) (document_content w)
  = None ->
  files (snd (save os_error filename w))
  = <[sanitize (ensure_txt filename) := document_content w]> (files w)
  /\ (Py.endswith filename (lit ".txt") = false ->
      sanitize (ensure_txt filename) = sanitize filename ++ lit ".txt"
      /\ (forallb kept filename = true ->
          sanitize (ensure_txt filename) = filename ++ lit ".txt"))
  /\ (Py.endswith filename (lit ".txt") = true ->
      sanitize (ensure_txt filename) = sanitize filename)
  /\ Py.endswith (sanitize (ensure_txt filename)) (lit ".txt") = true.
Proof.
  intros Hd He. split; [|split; [|split]].
  - rewrite save_written; trivial.
    intros E. rewrite E in Hd. discriminate.
  - intros Hf. rewrite (ensure_txt_missing _ Hf), sanitize_app, sanitize_txt.
    split; [reflexivity|]. intros Hk. now rewrite sanitize_kept.
  - intros Hf. now rewrite (ensure_txt_present _ Hf).
  - apply sanitize_keeps_txt, ensure_txt_ends.
Qed.

Lemma save_path_witness :
  Py.truthy (Py.strip (document_content drafted)) = true
  /\ writable (files drafted) (sanitize (U := ascii_only)
                                  (ensure_txt (lit "poem")))
              (document_content drafted) = None
  /\ files (snd (save (U := ascii_only) writable (lit "poem") drafted))
     = <[lit "poem.txt" := lit "old draft"]> ∅
  /\ files (snd (save (U := ascii_only) writable (lit "poem.txt") drafted))
     = <[lit "poem.txt" := lit "old draft"]> ∅.
Proof.
  split; [reflexivity|]. split; [reflexivity|]. split.
  - exact (proj1 (save_path (U := ascii_only) writable (lit "poem") drafted
                    eq_refl eq_refl)).
  - exact (proj1 (save_path (U := ascii_only) writable (lit "poem.txt")
                    drafted eq_refl eq_refl)).
Defined.

(** C5, as stated, fails: the sanitizer runs after the extension is
    added, so a filename with a character it drops is not written to the
    filename followed by [.txt]; and a filename that holds [.txt] before
    such a character is written to a path with the extension twice. *)
Lemma save_path_is_sanitized :
  Py.endswith (lit "notes/draft") (lit ".txt") = false
  /\ files (snd (save (U := ascii_only) writable (lit "notes/draft") drafted))
       !! lit "notes/draft.txt" = None
  /\ files (snd (save (U := ascii_only) writable (lit "notes/draft") drafted))
       !! lit "notesdraft.txt" = Some (lit "old draft")
  /\ Py.endswith (lit "<report.txt>") (lit ".txt") = false
  /\ files (snd (save (U := ascii_only) writable (lit "<report.txt>") drafted))
       !! lit "report.txt.txt" = Some (lit "old draft").
Proof.
  repeat (split; [vm_compute; reflexivity|]). vm_compute; reflexivity.
Qed.

(** ** The graph *)

Section GraphFacts.
Context {U : Py.Unicode}.
Variable os_error : os.
Variable model : list message -> completion.
Variable tool_error : tool_call -> str.

Lemma get_user_input_human state c m :
  get_user_input state c = Some m -> exists u, m = HumanMessage u.
Proof.
  unfold get_user_input. destruct state; [|destruct c as [line|]].
  - intros [= <-]. eauto.
  - destruct (negb _); intros [= <-]; eauto.
  - discriminate.
Qed.

(** The agent node appends the user message and an assistant message. *)
Lemma our_agent_appends w state c state' :
  our_agent model w state c = Some state' ->
  exists u content calls,
    state' = state ++ [HumanMessage u; AIMessage content calls].
Proof.
  unfold our_agent. destruct (get_user_input state c) as [m|] eqn:Hm;
    [|discriminate].
  apply get_user_input_human in Hm as [u ->].
  destruct (model _) as [content calls|e|]; [| |discriminate];
    intros [= <-]; eauto.
Qed.

Lemma should_continue_app_not_tool state extra :
  should_continue state = Continue ->
  forallb not_tool extra = true ->
  should_continue (state ++ extra) = Continue.
Proof.
  rewrite !should_continue_continue. intros H Hx m Hm.
  apply in_app_or in Hm as [Hm|Hm]; [now apply H|].
  rewrite forallb_forall in Hx. now apply not_tool_reports, Hx.
Qed.

Lemma step_live c c' :
  live c -> step os_error model tool_error c c' -> live c'.
Proof.
  intros Hc Hstep. destruct Hstep as [st w c st' next Hagent Hedge|st w outs w' Htools].
  - intros _. apply our_agent_appends in Hagent as (u & content & calls & ->).
    apply should_continue_app_not_tool; [|reflexivity].
    apply Hc. discriminate.
  - unfold live. destruct (should_continue (st ++ outs)); simpl; congruence.
Qed.

Lemma reachable_live disk c :
  reachable os_error model tool_error disk c -> live c.
Proof.
  induction 1 as [|c c' _ IH Hstep].
  - intros _. reflexivity.
  - exact (step_live c c' IH Hstep).
Qed.

(** With no call to run, the tools node returns nothing. *)
Lemma ToolNode_no_calls state w content :
  last state = Some (AIMessage content []) ->
  ToolNode os_error tool_error state w = Some ([], w).
Proof. intros H. unfold ToolNode. now rewrite H. Qed.

End GraphFacts.

(** C4, as the code has it.  In a session, whatever the assistant
    message holds, the agent node is followed by the tools node; when the
    assistant message holds no tool call, the tools node does run, appends
    no message, leaves document and files as they are, and is followed by
    the agent node, which asks the user, and by nothing else. *)
Theorem agent_leads_to_tools {U : Py.Unicode}
    (os_error : gmap str str -> str -> str -> option (str * gmap str str))
    (model : list message -> completion) (tool_error : tool_call -> str)
    (disk : gmap str str) (st : AgentState) (w : world) (c' : config) :
  reachable os_error model tool_error disk (agent, st, w) ->
  step os_error model tool_error (agent, st, w) c' ->
  exists st',
    c' = (tools, st', w)
    /\ forall content,
         last st' = Some (AIMessage content []) ->
         step os_error model tool_error (tools, st', w) (agent, st', w)
         /\ forall c'',
              step os_error model tool_error (tools, st', w) c'' ->
              c'' = (agent, st', w).
Proof.
  intros Hreach Hstep.
  assert (Hlive : live c')
    by (eapply reachable_live, reachable_step; eassumption).
  inversion Hstep as [st0 w0 c st' next Hagent Hedge|]; subst.
  destruct Hedge as [[= <-]|[]].
  exists st'. split; [reflexivity|].
  intros content Hlast.
  assert (Hgo : should_continue st' = Continue)
    by (apply Hlive; discriminate).
  assert (Hnode := ToolNode_no_calls os_error tool_error st' w content Hlast).
  split.
  - assert (Hrun := step_tools os_error model tool_error st' w [] w Hnode).
    rewrite app_nil_r, Hgo in Hrun. exact Hrun.
  - intros c'' Htools.
    inversion Htools as [|st0 w0 outs w' Hnode']; subst.
    rewrite Hnode in Hnode'. injection Hnode' as <- <-.
    now rewrite app_nil_r, Hgo.
Qed.

Lemma agent_leads_to_tools_witness :
  reachable (U := ascii_only) writable chatty no_such_tool ∅
    (agent, [], initial ∅)
  /\ step (U := ascii_only) writable chatty no_such_tool
       (agent, [], initial ∅) (tools, first_turn, initial ∅)
  /\ last first_turn = Some (AIMessage (lit "What should the document say?") [])
  /\ step (U := ascii_only) writable chatty no_such_tool
       (tools, first_turn, initial ∅) (agent, first_turn, initial ∅).
Proof.
  assert (Hstep : step (U := ascii_only) writable chatty no_such_tool
                    (agent, [], initial ∅) (tools, first_turn, initial ∅)).
  { apply (step_agent writable chatty no_such_tool [] (initial ∅) (Line []));
      [reflexivity|simpl; auto]. }
  split; [apply reachable_start|]. split; [exact Hstep|].
  split; [reflexivity|].
  destruct (agent_leads_to_tools (U := ascii_only) writable chatty no_such_tool
              ∅ [] (initial ∅) _ (reachable_start _ _ _ _) Hstep)
    as (st' & Heq & Hnext).
  injection Heq as <-.
  exact (proj1 (Hnext _ eq_refl)).
Defined.

(** C4, as stated, fails: the edge from the agent node to the tools node
    has no condition, so an assistant message without tool calls is
    followed by the tools node, and by no other node. *)
Lemma reply_without_calls_enters_tools :
  our_agent chatty (initial ∅) [] (Line []) = Some first_turn
  /\ last first_turn = Some (AIMessage (lit "What should the document say?") [])
  /\ step (U := ascii_only) writable chatty no_such_tool
       (agent, [], initial ∅) (tools, first_turn, initial ∅)
  /\ ~ step (U := ascii_only) writable chatty no_such_tool
         (agent, [], initial ∅) (agent, first_turn, initial ∅).
Proof.
  split; [reflexivity|]. split; [reflexivity|]. split.
  - apply (step_agent writable chatty no_such_tool [] (initial ∅) (Line []));
      [reflexivity|simpl; auto].
  - intros H. inversion H as [st w c st' next Hagent Hedge|]; subst.
    destruct Hedge as [[=]|[]].
Qed.

(** ** Runs *)

(** The assertions of [test_tools] in [test_agent.py]. *)
Example test_tools :
  Py.contains
    (Py.lower (U := ascii_only)
       (fst (update (lit "This is a test document.") (initial ∅))))
    (lit "successfully") = true
  /\ Py.contains (fst (update (lit "This is a test document.") (initial ∅)))
       (lit "This is a test document.") = true
  /\ Py.contains
       (Py.lower (U := ascii_only)
          (fst (save (U := ascii_only) writable (lit "test_document")
                  (snd (update (lit "This is a test document.") (initial ∅))))))
       (lit "successfully") = true
  /\ files (snd (save (U := ascii_only) writable (lit "test_document")
                   (snd (update (lit "This is a test document.") (initial ∅)))))
       !! lit "test_document.txt" = Some (lit "This is a test document.").
Proof. repeat (split; [vm_compute; reflexivity|]). vm_compute; reflexivity. Qed.

(** A save that succeeds: the file holds the document as it is, the
    result carries the three markers, and the session ends. *)
Example save_ends_session :
  step (U := ascii_only) writable chatty no_such_tool
    (tools, save_request, two_lines)
    (END,
     save_request ++ [ToolMessage (save_ok (lit "poem.txt")) (lit "call_1")],
     {| document_content := document_content two_lines;
        files := {[ lit "poem.txt" := lit "line1" ++ [LF] ++ lit "line2" ]} |}).
Proof.
  assert (Hnode : ToolNode (U := ascii_only) writable no_such_tool
                    save_request two_lines
                  = Some ([ToolMessage (save_ok (lit "poem.txt")) (lit "call_1")],
                          {| document_content := document_content two_lines;
                             files := {[ lit "poem.txt"
                                         := lit "line1" ++ [LF] ++ lit "line2" ]} |}))
    by (vm_compute; reflexivity).
  exact (step_tools writable chatty no_such_tool _ _ _ _ Hnode).
Qed.

(** * Further properties of the program *)

(** ** [update] *)

Lemma update_files content w : files (snd (update content w)) = files w.
Proof. unfold update. now destruct (negb _). Qed.

(** X1.  Updating with the trimmed content is updating with the content: the
    same result text and the same world, whether the content is blank or
    not. *)
Theorem update_of_trimmed (content : str) (w : world) :
  update (Py.strip content) w = update content w.
Proof. unfold update. now rewrite strip_idem. Qed.

(** X2.  The last update wins: after any earlier update, accepted or not, an
    update with content that is not blank gives the result and the world
    it would have given without the earlier one. *)
Theorem update_last_wins (a b : str) (w : world) :
  Py.truthy (Py.strip b) = true ->
  update b (snd (update a w)) = update b w.
Proof.
  intros Hb.
  assert (Hne : Py.strip b <> []) by (intros E; rewrite E in Hb; discriminate).
  rewrite (update_nonempty b (snd (update a w)) Hne).
  rewrite (update_nonempty b w Hne). now rewrite update_files.
Qed.

Lemma update_last_wins_witness :
  Py.truthy (Py.strip (lit " second draft ")) = true
  /\ update (lit " second draft ") (snd (update (lit "first draft") drafted))
     = update (lit " second draft ") drafted.
Proof.
  split; [reflexivity|].
  exact (update_last_wins (lit "first draft") (lit " second draft ") drafted
           eq_refl).
Defined.

(** ** Sequences of calls *)

Section CallFacts.
Context {U : Py.Unicode}.
Variable os_error : os.

Lemma run_app calls1 calls2 w :
  run os_error (calls1 ++ calls2) w
  = run os_error calls2 (run os_error calls1 w).
Proof. unfold run. apply fold_left_app. Qed.

Lemma invoke_keeps c w :
  keeps_document c = true ->
  document_content (snd (invoke os_error c w)) = document_content w.
Proof.
  destruct c as [content|filename]; simpl; intros H.
  - apply negb_true_iff in H. rewrite update_empty; [reflexivity|].
    now apply truthy_false.
  - apply save_document.
Qed.

Lemma run_keeps calls w :
  forallb keeps_document calls = true ->
  document_content (run os_error calls w) = document_content w.
Proof.
  revert w. induction calls as [|c calls IH]; intros w H; [reflexivity|].
  simpl in H. apply andb_true_iff in H as [Hc Hcalls].
  change (run os_error (c :: calls) w)
    with (run os_error calls (snd (invoke os_error c w))).
  rewrite (IH _ Hcalls). now apply invoke_keeps.
Qed.

End CallFacts.

(** X3.  After any sequence of calls, the document is the trimmed content of
    the last update that was not blank: the calls before it do not
    matter, and saves and blank updates after it change nothing. *)
Theorem document_is_last_update {U : Py.Unicode} (os_error : os)
    (before after : list call) (content : str) (w : world) :
  Py.truthy (Py.strip content) = true ->
  forallb keeps_document after = true ->
  document_content (run os_error (before ++ Update content :: after) w)
  = Py.strip content.
Proof.
  intros Hc Hafter. rewrite run_app.
  change (run os_error (Update content :: after) ?x)
    with (run os_error after (snd (update content x))).
  rewrite (run_keeps os_error after _ Hafter).
  rewrite update_nonempty; [reflexivity|].
  intros E. rewrite E in Hc. discriminate.
Qed.

Lemma document_is_last_update_witness :
  Py.truthy (Py.strip (lit " haiku ")) = true
  /\ forallb keeps_document [Save (lit "poem"); Update (lit "  ")] = true
  /\ document_content
       (run (U := ascii_only) writable
          ([Update (lit "notes"); Save (lit "notes")]
           ++ Update (lit " haiku ") :: [Save (lit "poem"); Update (lit "  ")])
          (initial ∅))
     = lit "haiku".
Proof.
  split; [reflexivity|]. split; [reflexivity|].
  exact (document_is_last_update (U := ascii_only) writable
           [Update (lit "notes"); Save (lit "notes")]
           [Save (lit "poem"); Update (lit "  ")] (lit " haiku ")
           (initial ∅) eq_refl eq_refl).
Defined.

(** ** [save] *)

Section SaveFacts.
Context {U : Py.Unicode}.

Lemma kept_excludes c p :
  kept c = false -> forallb kept p = true -> Py.contains p [c] = false.
Proof.
  intros Hc. induction p as [|x r IH]; [reflexivity|]. cbn [forallb].
  intros H. apply andb_true_iff in H as [Hx Hr].
  rewrite contains_unfold, (IH Hr), orb_false_r, startswith_one.
  apply N.eqb_neq. intros <-. congruence.
Qed.

Lemma target_fixed filename :
  sanitize (ensure_txt (sanitize (ensure_txt filename)))
  = sanitize (ensure_txt filename).
Proof.
  rewrite (ensure_txt_present (sanitize (ensure_txt filename))).
  - apply sanitize_kept, sanitize_all_kept.
  - apply sanitize_keeps_txt, ensure_txt_ends.
Qed.

Lemma strip_nonempty s : Py.truthy (Py.strip s) = true -> Py.strip s <> [].
Proof. intros H E. rewrite E in H. discriminate. Qed.

End SaveFacts.

(** X4.  A save that fails can be retried: the result carries the text of
    the exception, the document is kept as it was, and when the operating
    system lets the write through at the next attempt, saving again under
    the same filename writes the document. *)
Theorem save_retry {U : Py.Unicode} (os_error os_error' : os)
    (filename : str) (w : world) (e : str) (disk' : gmap str str) :
  Py.truthy (Py.strip (document_content w)) = true ->
  os_error (files w) (sanitize (ensure_txt filename)) (document_content w)
  = Some (e, disk') ->
  fst (save os_error filename w) = save_error e
  /\ Py.contains (fst (save os_error filename w)) e = true
  /\ document_content (snd (save os_error filename w)) = document_content w
  /\ (os_error' disk' (sanitize (ensure_txt filename)) (document_content w)
      = None ->
      files (snd (save os_error' filename (snd (save os_error filename w))))
      = <[sanitize (ensure_txt filename) := document_content w]> disk').
Proof.
  intros Hd He. apply strip_nonempty in Hd.
  rewrite (save_raises os_error filename w e disk' Hd He).
  cbn [fst snd document_content files].
  split; [reflexivity|]. split; [|split; [reflexivity|]].
  - apply contains_spec.
    exists (CROSS_MARK :: lit " Error saving document: "), [].
    now rewrite app_nil_r.
  - intros Hok. now rewrite save_written.
Qed.

Lemma save_retry_witness :
  Py.truthy (Py.strip (document_content drafted)) = true
  /\ read_only (files drafted) (sanitize (U := ascii_only)
                                  (ensure_txt (lit "notes")))
               (document_content drafted)
     = Some (lit "[Errno 13] Permission denied: 'notes.txt'", ∅)
  /\ writable ∅ (sanitize (U := ascii_only) (ensure_txt (lit "notes")))
       (document_content drafted) = None
  /\ files (snd (save (U := ascii_only) writable (lit "notes")
                   (snd (save (U := ascii_only) read_only (lit "notes")
                           drafted))))
       !! lit "notes.txt" = Some (lit "old draft").
Proof.
  split; [reflexivity|]. split; [vm_compute; reflexivity|].
  split; [reflexivity|].
  destruct (save_retry (U := ascii_only) read_only writable (lit "notes")
              drafted (lit "[Errno 13] Permission denied: 'notes.txt'")
              ∅ eq_refl eq_refl)
    as (_ & _ & _ & Hretry).
  rewrite (Hretry eq_refl). apply lookup_insert_eq.
Defined.

(** X5.  The document an update stores is the document a save writes: after
    [update content], a save that succeeds leaves a file that holds the
    trimmed content, byte for byte, and the document is still in
    memory. *)
Theorem update_then_save {U : Py.Unicode} (os_error : os)
    (content filename : str) (w : world) :
  Py.truthy (Py.strip content) = true ->
  os_error (files w) (sanitize (ensure_txt filename)) (Py.strip content)
  = None ->
  files (snd (save os_error filename (snd (update content w))))
    !! sanitize (ensure_txt filename) = Some (Py.strip content)
  /\ document_content (snd (save os_error filename (snd (update content w))))
     = Py.strip content.
Proof.
  intros Hc Hos. apply strip_nonempty in Hc.
  rewrite (update_nonempty content w Hc). simpl snd.
  rewrite save_written; simpl; try rewrite strip_idem; trivial.
  split; [apply lookup_insert_eq|reflexivity].
Qed.

Lemma update_then_save_witness :
  Py.truthy (Py.strip (lit " line1 " ++ [LF])) = true
  /\ writable (files drafted) (sanitize (U := ascii_only)
                                 (ensure_txt (lit "poem")))
       (Py.strip (lit " line1 " ++ [LF])) = None
  /\ files (snd (save (U := ascii_only) writable (lit "poem")
                   (snd (update (lit " line1 " ++ [LF]) drafted))))
       !! lit "poem.txt" = Some (lit "line1").
Proof.
  split; [reflexivity|]. split; [reflexivity|].
  exact (proj1 (update_then_save (U := ascii_only) writable
                  (lit " line1 " ++ [LF]) (lit "poem") drafted
                  eq_refl eq_refl)).
Defined.

(** X6.  The path [save] hands to [open], whatever the filename, has
    only characters the sanitizer keeps: it holds neither a slash nor a
    backslash, and it is its own final component. *)
Theorem save_path_has_no_separator {U : Py.Unicode} (filename : str) :
  forallb kept (sanitize (ensure_txt filename)) = true
  /\ Py.contains (sanitize (ensure_txt filename)) [0x2F] = false
  /\ Py.contains (sanitize (ensure_txt filename)) [0x5C] = false
  /\ Path_name (sanitize (ensure_txt filename))
     = sanitize (ensure_txt filename).
Proof.
  split; [|split; [|split]].
  - apply sanitize_all_kept.
  - apply kept_excludes; [reflexivity|apply sanitize_all_kept].
  - apply kept_excludes; [reflexivity|apply sanitize_all_kept].
  - apply Path_name_sanitize.
Qed.

(** X7.  The filename enters [save] only through the path it is turned into:
    saving under that path gives the same result text and the same world
    as saving under the filename. *)
Theorem save_under_written_name {U : Py.Unicode} (os_error : os)
    (filename : str) (w : world) :
  save os_error (sanitize (ensure_txt filename)) w = save os_error filename w.
Proof. unfold save. now rewrite target_fixed. Qed.

(** X8.  A save that succeeds names the file it wrote, and its result ends
    the session after any history. *)
Theorem save_success_ends_session {U : Py.Unicode} (os_error : os)
    (filename : str) (w : world) (state : AgentState) (i : str) :
  Py.truthy (Py.strip (document_content w)) = true ->
  os_error (files w) (sanitize (ensure_txt filename)) (document_content w)
  = None ->
  fst (save os_error filename w) = save_ok (sanitize (ensure_txt filename))
  /\ should_continue
       (state ++ [ToolMessage (fst (save os_error filename w)) i])
     = End_.
Proof.
  intros Hd Hos. apply strip_nonempty in Hd.
  rewrite (save_written os_error filename w Hd Hos). simpl fst.
  rewrite Path_name_sanitize. split; [reflexivity|].
  apply should_continue_end.
  exists (ToolMessage (save_ok (sanitize (ensure_txt filename))) i).
  split; [apply in_or_app; right; simpl; auto|apply reports_save_ok].
Qed.

Lemma save_success_ends_session_witness :
  Py.truthy (Py.strip (document_content two_lines)) = true
  /\ writable (files two_lines)
       (sanitize (U := ascii_only) (ensure_txt (lit "poem")))
       (document_content two_lines) = None
  /\ fst (save (U := ascii_only) writable (lit "poem") two_lines)
     = save_ok (lit "poem.txt")
  /\ should_continue (U := ascii_only)
       (save_request
        ++ [ToolMessage (fst (save (U := ascii_only) writable (lit "poem")
                                two_lines)) (lit "call_1")])
     = End_.
Proof.
  split; [reflexivity|]. split; [reflexivity|].
  exact (save_success_ends_session (U := ascii_only) writable (lit "poem")
           two_lines save_request (lit "call_1") eq_refl eq_refl).
Defined.

(** ** [should_continue], as a function of the history *)

Section RoutingAlgebra.
Context {U : Py.Unicode}.

Lemma route_cases (r : route) : r = Continue \/ r = End_.
Proof. destruct r; auto. Qed.

(** Two histories with the same messages that pass the test get the same
    answer. *)
Lemma should_continue_ext a b :
  (forall m, reports_save m = true -> In m a <-> In m b) ->
  should_continue a = should_continue b.
Proof.
  intros H.
  assert (He : should_continue a = End_ <-> should_continue b = End_).
  { rewrite !should_continue_end.
    split; intros (m & Hm & Hs); exists m; split; trivial;
      now apply (H m Hs). }
  destruct (route_cases (should_continue a)) as [Ea|Ea],
           (route_cases (should_continue b)) as [Eb|Eb];
    try congruence.
  - apply He in Eb. congruence.
  - apply He in Ea. congruence.
Qed.

End RoutingAlgebra.

(** X9.  The answer on two histories put end to end is [end] exactly when it
    is [end] on one of them. *)
Theorem should_continue_app {U : Py.Unicode} (a b : AgentState) :
  should_continue (a ++ b) = End_
  <-> should_continue a = End_ \/ should_continue b = End_.
Proof.
  rewrite !should_continue_end. split.
  - intros (m & Hm & Hs). apply in_app_or in Hm as [Hm|Hm];
      [left|right]; now exists m.
  - intros [(m & Hm & Hs)|(m & Hm & Hs)]; exists m; split; trivial;
      apply in_or_app; auto.
Qed.

(** X10.  Although the loop goes from the newest message to the oldest, the
    answer does not depend on the order of the messages. *)
Theorem should_continue_permutation {U : Py.Unicode} (a b : AgentState) :
  Permutation a b -> should_continue a = should_continue b.
Proof.
  intros H. apply should_continue_ext. intros m _. split.
  - now apply Permutation_in.
  - apply Permutation_in. now symmetry.
Qed.

Lemma should_continue_permutation_witness :
  Permutation [HumanMessage (lit "thanks"); saved_poem]
              [saved_poem; HumanMessage (lit "thanks")]
  /\ should_continue (U := ascii_only)
       [HumanMessage (lit "thanks"); saved_poem]
     = should_continue (U := ascii_only)
         [saved_poem; HumanMessage (lit "thanks")].
Proof.
  split; [apply perm_swap|].
  exact (should_continue_permutation (U := ascii_only) _ _
           (perm_swap _ _ [])).
Defined.

(** X11.  Only tool results count: a system, user or assistant message, with
    whatever text, put anywhere in the history leaves the answer as it
    was. *)
Theorem should_continue_ignores_talk {U : Py.Unicode}
    (a b : AgentState) (m : message) :
  not_tool m = true ->
  should_continue (a ++ m :: b) = should_continue (a ++ b).
Proof.
  intros Hm. apply should_continue_ext. intros x Hx.
  rewrite !in_app_iff. simpl. split.
  - intros [H|[->|H]]; auto.
    rewrite (not_tool_reports _ Hm) in Hx. discriminate.
  - intros [H|H]; auto.
Qed.

Lemma should_continue_ignores_talk_witness :
  not_tool (HumanMessage (lit "Document saved successfully")) = true
  /\ should_continue (U := ascii_only)
       ([] ++ HumanMessage (lit "Document saved successfully") :: [])
     = Continue.
Proof.
  split; [reflexivity|].
  exact (should_continue_ignores_talk (U := ascii_only) [] []
           (HumanMessage (lit "Document saved successfully")) eq_refl).
Defined.

(** ** The agent node *)

(** X12.  After the first turn, the user message sent to the model is never
    blank and carries no whitespace at either end: a blank line is
    replaced by the reminder, any other line is trimmed. *)
Theorem get_user_input_trimmed (state : AgentState) (user_input : str) :
  state <> [] ->
  exists content,
    get_user_input state (Line user_input) = Some (HumanMessage content)
    /\ Py.truthy content = true
    /\ Py.strip content = content.
Proof.
  intros Hs. destruct state as [|m state]; [congruence|]. simpl.
  destruct (Py.truthy (Py.strip user_input)) eqn:E; simpl.
  - exists (Py.strip user_input). split; [reflexivity|].
    split; [exact E|apply strip_idem].
  - exists (lit "Please provide some input or say 'save' to finish.").
    repeat split.
Qed.

Lemma get_user_input_trimmed_witness :
  [saved_poem] <> []
  /\ exists content,
       get_user_input [saved_poem] (Line (lit "  ")) = Some (HumanMessage content)
       /\ Py.truthy content = true
       /\ Py.strip content = content.
Proof.
  split; [discriminate|].
  exact (get_user_input_trimmed [saved_poem] (lit "  ")
           (ltac:(discriminate))).
Defined.


(** ** Sessions *)

Section SessionFacts.
Context {U : Py.Unicode}.
Variable os_error : os.
Variable model : list message -> completion.
Variable tool_error : tool_call -> str.

Lemma run_one_trimmed call w :
  Py.strip (document_content w) = document_content w ->
  Py.strip (document_content (snd (run_one os_error tool_error call w)))
  = document_content (snd (run_one os_error tool_error call w)).
Proof.
  intros Hw. unfold run_one.
  destruct (bool_decide (name call = lit "update")).
  - destruct (args call !! lit "content") as [content|]; [|exact Hw].
    destruct (update content w) as [text w'] eqn:E.
    change w' with (snd (text, w')). rewrite <- E.
    exact (invoke_trimmed os_error (Update content) w Hw).
  - destruct (bool_decide (name call = lit "save")); [|exact Hw].
    destruct (args call !! lit "filename") as [filename|]; [|exact Hw].
    destruct (save os_error filename w) as [text w'] eqn:E.
    change w' with (snd (text, w')). rewrite <- E.
    exact (invoke_trimmed os_error (Save filename) w Hw).
Qed.

Lemma run_calls_trimmed calls w :
  Py.strip (document_content w) = document_content w ->
  Py.strip (document_content (snd (run_calls os_error tool_error calls w)))
  = document_content (snd (run_calls os_error tool_error calls w)).
Proof.
  revert w. induction calls as [|call rest IH]; intros w Hw; [exact Hw|].
  simpl. destruct (run_one os_error tool_error call w) as [m w1] eqn:E1.
  assert (H1 : Py.strip (document_content w1) = document_content w1).
  { change w1 with (snd (m, w1)). rewrite <- E1. now apply run_one_trimmed. }
  specialize (IH w1 H1).
  destruct (run_calls os_error tool_error rest w1) as [ms w2]. exact IH.
Qed.

Lemma step_trimmed c c' :
  step os_error model tool_error c c' ->
  Py.strip (document_content (world_of c)) = document_content (world_of c) ->
  Py.strip (document_content (world_of c')) = document_content (world_of c').
Proof.
  intros Hstep. destruct Hstep as [st w c st' next _ _|st w outs w' Hnode];
    [trivial|].
  unfold world_of. simpl. intros Hw. unfold ToolNode in Hnode.
  destruct (last st) as [[| | content calls|]|]; try discriminate.
  injection Hnode as Hrun.
  change w' with (snd (outs, w')). rewrite <- Hrun.
  now apply run_calls_trimmed.
Qed.

Lemma step_appends c c' :
  step os_error model tool_error c c' ->
  exists new, messages_of c' = messages_of c ++ new.
Proof.
  intros Hstep. destruct Hstep as [st w c st' next Hagent _|st w outs w' _].
  - apply our_agent_appends in Hagent as (u & content & calls & ->).
    now eexists.
  - now exists outs.
Qed.

(** In a session, when the tools node is about to run, the last message
    is an assistant message. *)
Lemma reachable_tools_ready disk c :
  reachable os_error model tool_error disk c ->
  node_of c = tools ->
  exists content calls, last (messages_of c) = Some (AIMessage content calls).
Proof.
  intros Hr. destruct Hr as [|c c' _ Hstep]; [discriminate|].
  destruct Hstep as [st w cs st' next Hagent _|st w outs w' _].
  - intros _. apply our_agent_appends in Hagent as (u & content & calls & ->).
    exists content, calls. unfold messages_of. simpl.
    change [HumanMessage u; AIMessage content calls]
      with ([HumanMessage u] ++ [AIMessage content calls]).
    rewrite app_assoc. apply last_snoc.
  - unfold node_of. simpl.
    destruct (should_continue (st ++ outs)); discriminate.
Qed.

End SessionFacts.

(** The session with [scribe]: one turn, one batch of two calls. *)
Lemma scribe_session :
  reachable (U := ascii_only) writable scribe no_such_tool ∅
    (END, scribe_turn ++ scribe_results, scribe_world).
Proof.
  eapply reachable_step.
  - eapply reachable_step; [apply reachable_start|].
    apply (step_agent writable scribe no_such_tool [] (initial ∅) (Line [])
             scribe_turn tools); [reflexivity|simpl; auto].
  - assert (Hnode : ToolNode (U := ascii_only) writable no_such_tool
                      scribe_turn (initial ∅)
                    = Some (scribe_results, scribe_world))
      by (vm_compute; reflexivity).
    exact (step_tools writable scribe no_such_tool _ _ _ _ Hnode).
Defined.

(** X14.  History is only ever appended to: after any number of steps of the
    graph, the messages that were there are still there, in the same
    order, at the front. *)
Theorem history_append_only {U : Py.Unicode} (os_error : os)
    (model : list message -> completion) (tool_error : tool_call -> str)
    (c c' : config) :
  rtc (step os_error model tool_error) c c' ->
  exists new, messages_of c' = messages_of c ++ new.
Proof.
  induction 1 as [c|c c1 c2 Hstep _ IH].
  - exists []. now rewrite app_nil_r.
  - apply step_appends in Hstep as [new1 H1]. destruct IH as [new2 H2].
    exists (new1 ++ new2). now rewrite H2, H1, app_assoc.
Qed.

Lemma history_append_only_witness :
  rtc (step (U := ascii_only) writable chatty no_such_tool)
    (agent, [], initial ∅) (agent, first_turn, initial ∅)
  /\ exists new, first_turn = [] ++ new.
Proof.
  assert (H : rtc (step (U := ascii_only) writable chatty no_such_tool)
                (agent, [], initial ∅) (agent, first_turn, initial ∅)).
  { eapply rtc_l.
    { apply (step_agent writable chatty no_such_tool [] (initial ∅) (Line []));
        [reflexivity|simpl; auto]. }
    eapply rtc_l; [|apply rtc_refl].
    exact (step_tools (U := ascii_only) writable chatty no_such_tool
             first_turn (initial ∅) [] (initial ∅) eq_refl). }
  split; [exact H|].
  exact (history_append_only (U := ascii_only) writable chatty no_such_tool
           _ _ H).
Defined.

(** X15.  Throughout a session the stored document equals its own trimmed
    form, whatever tools the model calls, with whatever arguments. *)
Theorem session_document_trimmed {U : Py.Unicode} (os_error : os)
    (model : list message -> completion) (tool_error : tool_call -> str)
    (disk : gmap str str) (c : config) :
  reachable os_error model tool_error disk c ->
  Py.strip (document_content (world_of c)) = document_content (world_of c).
Proof.
  induction 1 as [|c c' _ IH Hstep]; [reflexivity|].
  exact (step_trimmed os_error model tool_error c c' Hstep IH).
Qed.

Lemma session_document_trimmed_witness :
  reachable (U := ascii_only) writable scribe no_such_tool ∅
    (END, scribe_turn ++ scribe_results, scribe_world)
  /\ Py.strip (document_content scribe_world) = document_content scribe_world.
Proof.
  split; [exact scribe_session|].
  exact (session_document_trimmed (U := ascii_only) writable scribe
           no_such_tool ∅ _ scribe_session).
Defined.

(** X16.  Whenever a session is about to run the tools node, the last
    message is the assistant message the agent node has just appended:
    the tools node does not raise for want of one, and runs the calls of
    that message. *)
Theorem tools_node_ready {U : Py.Unicode} (os_error : os)
    (model : list message -> completion) (tool_error : tool_call -> str)
    (disk : gmap str str) (st : AgentState) (w : world) :
  reachable os_error model tool_error disk (tools, st, w) ->
  exists content calls,
    last st = Some (AIMessage content calls)
    /\ ToolNode os_error tool_error st w
       = Some (run_calls os_error tool_error calls w).
Proof.
  intros Hr.
  destruct (reachable_tools_ready os_error model tool_error disk _ Hr eq_refl)
    as (content & calls & Hlast).
  unfold messages_of in Hlast. simpl in Hlast.
  exists content, calls. split; [exact Hlast|].
  unfold ToolNode. now rewrite Hlast.
Qed.

Lemma tools_node_ready_witness :
  reachable (U := ascii_only) writable scribe no_such_tool ∅
    (tools, scribe_turn, initial ∅)
  /\ exists content calls,
       last scribe_turn = Some (AIMessage content calls)
       /\ ToolNode (U := ascii_only) writable no_such_tool scribe_turn
            (initial ∅)
          = Some (run_calls (U := ascii_only) writable no_such_tool calls
                    (initial ∅)).
Proof.
  assert (Hr : reachable (U := ascii_only) writable scribe no_such_tool ∅
                 (tools, scribe_turn, initial ∅)).
  { eapply reachable_step; [apply reachable_start|].
    apply (step_agent writable scribe no_such_tool [] (initial ∅) (Line [])
             scribe_turn tools); [reflexivity|simpl; auto]. }
  split; [exact Hr|].
  exact (tools_node_ready (U := ascii_only) writable scribe no_such_tool ∅
           _ _ Hr).
Defined.

(** X17.  A session ends only on a tool result: when the graph has reached
    [END], the history holds a [ToolMessage] whose text carries the three
    markers, and no node runs any more. *)
Theorem session_end {U : Py.Unicode} (os_error : os)
    (model : list message -> completion) (tool_error : tool_call -> str)
    (disk : gmap str str) (st : AgentState) (w : world) :
  reachable os_error model tool_error disk (END, st, w) ->
  (exists content i,
      In (ToolMessage content i) st
      /\ forall p, In p markers -> Py.contains (Py.lower content) p = true)
  /\ forall c', ~ step os_error model tool_error (END, st, w) c'.
Proof.
  intros Hr. split; [|intros c' H; inversion H].
  inversion Hr as [|c0 c1 _ Hstep]; subst.
  inversion Hstep as [st0 w0 cs st' next _ Hedge|st0 w0 outs w' _ Hroute];
    subst.
  - destruct Hedge as [[=]|[]].
  - destruct (should_continue (st0 ++ outs)) eqn:E; [discriminate|].
    apply should_continue_end in E as (m & Hm & Hs).
    destruct m as [| | |content i]; try discriminate.
    exists content, i. split; [exact Hm|].
    unfold reports_save in Hs.
    apply andb_true_iff in Hs as [Hs H3].
    apply andb_true_iff in Hs as [H1 H2].
    intros p Hp. simpl in Hp. destruct Hp as [<-|[<-|[<-|[]]]]; assumption.
Qed.

Lemma session_end_witness :
  reachable (U := ascii_only) writable scribe no_such_tool ∅
    (END, scribe_turn ++ scribe_results, scribe_world)
  /\ exists content i,
       In (ToolMessage content i) (scribe_turn ++ scribe_results)
       /\ forall p, In p markers ->
                    Py.contains (Py.lower (U := ascii_only) content) p = true.
Proof.
  split; [exact scribe_session|].
  exact (proj1 (session_end (U := ascii_only) writable scribe no_such_tool ∅
                  _ _ scribe_session)).
Defined.

(** ** [print_messages] *)

Lemma print_messages_shown messages :
  print_messages messages = List.flat_map shown (last_three messages).
Proof. now destruct messages. Qed.

Lemma length_last_three {A : Type} (l : list A) :
  (length (last_three l) <= 3)%nat.
Proof. unfold last_three. rewrite length_skipn. lia. Qed.

Lemma last_three_app {A : Type} (a b : list A) :
  (3 <= length b)%nat -> last_three (a ++ b) = last_three b.
Proof.
  intros H. unfold last_three.
  rewrite length_app, skipn_app.
  replace (length a + length b - 3 - length a)%nat with (length b - 3)%nat
    by lia.
  rewrite skipn_all2 by lia. reflexivity.
Qed.

Lemma length_shown (l : list message) :
  (length (List.flat_map shown l) <= length l)%nat.
Proof.
  induction l as [|m l IH]; simpl; [lia|].
  rewrite length_app.
  assert (length (shown m) <= 1)%nat; [|lia].
  destruct m; simpl; try lia. destruct (Py.truthy _); simpl; lia.
Qed.

(** X18.  [print_messages] calls [print] at most three times, and only
    for tool results: each string printed is the clipboard sign, a space,
    and the trimmed text, not blank, of a [ToolMessage] among the last
    three messages. *)
Theorem print_messages_lines (messages : list message) :
  (length (print_messages messages) <= 3)%nat
  /\ forall line,
       In line (print_messages messages) ->
       exists content i,
         In (ToolMessage content i) (last_three messages)
         /\ Py.truthy (Py.strip content) = true
         /\ line = CLIPBOARD :: lit " " ++ Py.strip content.
Proof.
  rewrite print_messages_shown. split.
  - etransitivity; [apply length_shown|apply length_last_three].
  - intros line Hline. apply in_flat_map in Hline as (m & Hm & Hline).
    destruct m as [| | |content i]; simpl in Hline; try contradiction.
    destruct (Py.truthy (Py.strip content)) eqn:E; [|contradiction].
    destruct Hline as [<-|[]]. now exists content, i.
Qed.

(** X19.  Only the last three messages matter: what comes before them, tool
    results included, is not shown. *)
Theorem print_messages_recent (older recent : list message) :
  (3 <= length recent)%nat ->
  print_messages (older ++ recent) = print_messages recent.
Proof.
  intros H. rewrite !print_messages_shown. now rewrite last_three_app.
Qed.

Lemma print_messages_recent_witness :
  (3 <= length (saved_poem :: first_turn))%nat
  /\ print_messages ([saved_poem; saved_poem] ++ saved_poem :: first_turn)
     = [CLIPBOARD :: lit " " ++ save_ok (lit "poem.txt")].
Proof.
  split; [simpl; lia|].
  exact (print_messages_recent [saved_poem; saved_poem]
           (saved_poem :: first_turn) (le_n 3)).
Defined.

(** ** [create_system_prompt] *)

(** X20.  The prompt built after an update that was accepted shows the new
    document, as trimmed. *)
Theorem system_prompt_after_update (content : str) (w : world) :
  Py.truthy (Py.strip content) = true ->
  exists prompt,
    create_system_prompt (snd (update content w)) = SystemMessage prompt
    /\ Py.contains prompt (lit "Current document content:" ++ [LF]
                           ++ Py.strip content ++ [LF]) = true.
Proof.
  intros Hc. rewrite (update_nonempty content w (strip_nonempty _ Hc)).
  unfold create_system_prompt. cbn [snd document_content]. rewrite Hc.
  eexists. split; [reflexivity|].
  apply contains_spec.
  exists (text [
    [];
    lit "You are Drafter, a helpful and professional document writing assistant. Your role is to help users create, edit, and manage documents effectively.";
    [];
    lit "CAPABILITIES:";
    lit "- Update document content using the 'update' tool";
    lit "- Save documents to files using the 'save' tool";
    lit "- Provide writing suggestions and improvements";
    lit "- Help with document structure and formatting";
    [];
    lit "GUIDELINES:";
    lit "- Always be helpful, professional, and clear in your responses";
    lit "- When updating content, use the 'update' tool with the complete new content";
    lit "- When saving, use the 'save' tool with an appropriate filename";
    lit "- Show the current document state after any modifications";
    lit "- Provide constructive feedback and suggestions";
    lit "- Ask clarifying questions when needed";
    []]),
    (text [[]; lit "Remember: Always show the current document state after any changes."]).
  unfold text. cbn [List.map List.concat].
  rewrite <- !app_assoc. reflexivity.
Qed.

Lemma system_prompt_after_update_witness :
  Py.truthy (Py.strip (lit " haiku ")) = true
  /\ exists prompt,
       create_system_prompt (snd (update (lit " haiku ") drafted))
       = SystemMessage prompt
       /\ Py.contains prompt (lit "Current document content:" ++ [LF]
                              ++ Py.strip (lit " haiku ") ++ [LF]) = true.
Proof.
  split; [reflexivity|].
  exact (system_prompt_after_update (lit " haiku ") drafted eq_refl).
Defined.
